(** * Chat-transcript PDF export: [backend/open_webui/utils/pdf_generator.py]

    A shallow embedding of the module's HTML assembly pipeline
    ([contains_rtl], [fix_rtl], [PDFGenerator.format_timestamp],
    [PDFGenerator._build_html_message], [PDFGenerator._generate_html_body],
    [PDFGenerator.generate_chat_pdf]) together with the properties the
    specification states about it.

    Python values are modelled by an inductive type of JSON-like values, a
    Python [str] by the list of its Unicode code points, a message
    ([Dict[str, Any]]) by a finite map from keys to values, a raised
    exception by the [Raise] constructor of [result].  The third-party
    functions the module calls ([textwrap.wrap], [arabic_reshaper.reshape],
    [bidi.algorithm.get_display], [datetime.fromtimestamp], the Unicode case
    tables behind [str.title], the FPDF engine, the file system) are the
    fields of the class [Libraries]; what is assumed about them is stated
    library by library in [WrapSpec], [ShapingSpec], [CaseSpec] and
    [ClockSpec], and each theorem names the ones it rests on. *)

From Stdlib Require Import ZArith List Bool Lia.
From stdpp Require Import base option list gmap strings.

Local Open Scope Z_scope.
#[local] Set Warnings "-register-all".

(** ** Strings *)

(** A Python [str]: the sequence of its code points. *)
Abbreviation str := (list Z).

(** The code points of an ASCII literal. *)
Definition lit (s : string) : str :=
  map (fun a => Z.of_N (Ascii.N_of_ascii a)) (String.list_ascii_of_string s).

(** [s.replace(c, rep)] for a one-character pattern [c]. *)
Definition replace (c : Z) (rep : str) (s : str) : str :=
  flat_map (fun x => if x =? c then rep else [x]) s.

(** [sep.join(parts)]. *)
Fixpoint join (sep : str) (parts : list str) : str :=
  match parts with
  | [] => []
  | [p] => p
  | p :: rest => p ++ sep ++ join sep rest
  end.

(** Number of occurrences of the code point [c] in [s]. *)
Definition count (c : Z) (s : str) : nat :=
  length (filter (fun x => x = c) s).

(** ** Exceptions and results *)

Inductive exn : Type :=
| ValueError
| TypeError
| OverflowError
| OSError
| AttributeError
| IndexError
| FileNotFoundError
| RuntimeError.

Inductive result (A : Type) : Type :=
| Ok (a : A)
| Raise (e : exn).
Arguments Ok {A} a.
Arguments Raise {A} e.

#[global] Instance result_ret : MRet result := fun A a => Ok a.
#[global] Instance result_bind : MBind result := fun A B f r =>
  match r with
  | Ok a => f a
  | Raise e => Raise e
  end.

(** [try: body except (e1, e2, ...): handler]. *)
Definition try_except {A} (body : result A) (caught : exn -> bool)
    (handler : exn -> result A) : result A :=
  match body with
  | Ok a => Ok a
  | Raise e => if caught e then handler e else Raise e
  end.

(** [[f(x) for x in xs]]: evaluated left to right, the first exception
    leaves the comprehension. *)
Fixpoint list_comprehension {A B} (f : A -> result B) (xs : list A)
    : result (list B) :=
  match xs with
  | [] => Ok []
  | x :: rest =>
      y ← f x;
      ys ← list_comprehension f rest;
      Ok (y :: ys)
  end.

(** ** Python values *)

(** A Python [float]: not-a-number, an infinity, or [m * 2^e]. *)
Inductive pyfloat : Type :=
| FNan
| FInf (negative : bool)
| FFinite (m e : Z).

Inductive value : Type :=
| VNone
| VBool (b : bool)
| VInt (n : Z)
| VFloat (f : pyfloat)
| VStr (s : str)
| VList (items : list value)
| VDict (items : list (str * value)).

(** Truth value of an object, as tested by [x if v else y]. *)
Definition truthy (v : value) : bool :=
  match v with
  | VNone => false
  | VBool b => b
  | VInt n => negb (n =? 0)
  | VFloat (FFinite m _) => negb (m =? 0)
  | VFloat _ => true
  | VStr s => match s with [] => false | _ => true end
  | VList l => match l with [] => false | _ => true end
  | VDict d => match d with [] => false | _ => true end
  end.

(** Instances of [int] or [float] ([bool] is a subclass of [int]). *)
Definition is_number (v : value) : bool :=
  match v with
  | VBool _ | VInt _ | VFloat _ => true
  | _ => false
  end.

(** A message: [Dict[str, Any]]. *)
Abbreviation message := (gmap string value).

(** [d.get(key, default)]. *)
Definition get (d : message) (key : string) (default : value) : value :=
  match d !! key with
  | Some v => v
  | None => default
  end.

(** ** [html.escape] *)

Definition AMP : Z := 38.
Definition LT : Z := 60.
Definition GT : Z := 62.
Definition QUOT : Z := 34.
Definition APOS : Z := 39.
Definition NEWLINE : Z := 10.
Definition SPACE : Z := 32.

(** The string operations of [html.escape(s, quote=True)], in the order of
    the library: the ampersand is replaced first. *)
Definition escape_str (s : str) : str :=
  let s := replace AMP (lit "&amp;") s in
  let s := replace LT (lit "&lt;") s in
  let s := replace GT (lit "&gt;") s in
  let s := replace QUOT (lit "&quot;") s in
  let s := replace APOS (lit "&#x27;") s in
  s.

(** What [html.escape] writes for one character. *)
Definition escape_char (c : Z) : str :=
  if c =? AMP then lit "&amp;"
  else if c =? LT then lit "&lt;"
  else if c =? GT then lit "&gt;"
  else if c =? QUOT then lit "&quot;"
  else if c =? APOS then lit "&#x27;"
  else [c].

(** [escape(v)]: [v.replace] exists on strings only. *)
Definition escape (v : value) : result str :=
  match v with
  | VStr s => Ok (escape_str s)
  | _ => Raise AttributeError
  end.

(** ** The RTL detector *)

(** The character class of [rtl_re], range by range as written. *)
Definition rtl_re : list (Z * Z) :=
  [ (0x0600, 0x06FF); (0x0590, 0x05FF); (0x0750, 0x077F);
    (0xFB50, 0xFDFF); (0xFE70, 0xFEFF); (0x0700, 0x074F);
    (0x0780, 0x07BF) ].

(** The character class U+0600-U+06FF tested in [fix_rtl]. *)
Definition arabic_re : list (Z * Z) := [ (0x0600, 0x06FF) ].

Definition in_class (class : list (Z * Z)) (c : Z) : bool :=
  existsb (fun r => (fst r <=? c) && (c <=? snd r)) class.

(** [bool(re.search(class, text))] for a one-character class. *)
Definition re_search (class : list (Z * Z)) (text : str) : bool :=
  existsb (in_class class) text.

Definition contains_rtl (text : str) : bool := re_search rtl_re text.

(** ** The libraries the module calls *)

(** A [datetime] object, to the second. *)
Record datetime : Type := MkDatetime {
  year : Z; month : Z; day : Z; hour : Z; minute : Z; second : Z
}.

(** A [pathlib.Path], by its string. *)
Abbreviation path := (list Z).

Class Libraries : Type := {
  (** [textwrap.wrap(text, width=width)], for a positive width (the module
      passes 75; the library raises [ValueError] on the others). *)
  wrap : str -> Z -> list str;
  (** [arabic_reshaper.reshape(line)] *)
  reshape : str -> str;
  (** [bidi.algorithm.get_display(line)] *)
  get_display : str -> str;
  (** The Unicode database behind [str.title]: the title-case mapping of a
      code point, the lower-case mapping of the code point at an index of a
      string, and the [Cased] property. *)
  to_title_full : Z -> str;
  lower_ucs4 : str -> nat -> Z -> str;
  is_cased : Z -> bool;
  (** [datetime.fromtimestamp(timestamp)], in the host's local time. *)
  fromtimestamp : value -> result datetime;
  (** [Path.exists()] and [site.getsitepackages()]. *)
  path_exists : path -> bool;
  getsitepackages : list path;
  (** The FPDF engine: the document under construction and the methods
      [generate_chat_pdf] calls on it. *)
  pdf : Type;
  FPDF : pdf;
  add_page : pdf -> result pdf;
  add_font : str -> str -> str -> pdf -> result pdf;
  set_font : str -> Z -> pdf -> result pdf;
  set_fallback_fonts : list str -> pdf -> result pdf;
  set_auto_page_break : bool -> Z -> pdf -> result pdf;
  write_html : str -> pdf -> result pdf;
  output : pdf -> result (list Byte.byte)
}.

Section Generator.
Context {L : Libraries}.

(** ** The RTL normalizer *)

Definition fix_rtl (text : str) (width : Z) : str :=
  let wrapped_lines := wrap text width in
  let processed_lines :=
    fold_left
      (fun processed_lines line =>
         let line :=
           if re_search arabic_re line then reshape line else line in
         processed_lines ++ [get_display line])
      wrapped_lines [] in
  join [NEWLINE] processed_lines.

(** ** [str.title] *)

(** The loop of [str.title]: a character that follows a cased character is
    lower-cased, any other one is title-cased. *)
Fixpoint do_title (whole : str) (i : nat) (rest : str)
    (previous_is_cased : bool) : str :=
  match rest with
  | [] => []
  | c :: rest' =>
      (if previous_is_cased then lower_ucs4 whole i c else to_title_full c)
        ++ do_title whole (S i) rest' (is_cased c)
  end.

Definition title (s : str) : str := do_title s 0%nat s false.

(** ** The timestamp formatter *)

Definition digit (n : Z) : Z := 48 + n mod 10.

(** [%02d] and [%04d] of a field within its range. *)
Definition two_digits (n : Z) : str := [digit (n / 10); digit n].
Definition four_digits (n : Z) : str :=
  [digit (n / 1000); digit (n / 100); digit (n / 10); digit n].

(** [%Y] as the C library of the host writes it: the decimal digits of
    the year without padding, one to four for the years 1 to 9999 of a
    [datetime]. *)
Definition year_digits (y : Z) : str :=
  if y <? 10 then [digit y]
  else if y <? 100 then [digit (y / 10); digit y]
  else if y <? 1000 then [digit (y / 100); digit (y / 10); digit y]
  else four_digits y.

(** [date_time.strftime("%Y-%m-%d, %H:%M:%S")]. *)
Definition strftime (d : datetime) : str :=
  year_digits (year d) ++ lit "-" ++ two_digits (month d) ++ lit "-"
    ++ two_digits (day d) ++ lit ", " ++ two_digits (hour d) ++ lit ":"
    ++ two_digits (minute d) ++ lit ":" ++ two_digits (second d).

Definition format_timestamp (timestamp : value) : result str :=
  try_except
    (date_time ← fromtimestamp timestamp;
     Ok (strftime date_time))
    (fun e => match e with ValueError | TypeError => true | _ => false end)
    (fun e => Ok []).

(** ** The message renderer *)

Definition nl : str := [NEWLINE].
Definition indent (n : nat) (s : string) : str := replicate n SPACE ++ lit s.

(** The f-string of [_build_html_message]. *)
Definition html_message (role_title model date_str content : str) : str :=
  nl ++ indent 12 "<div>"
  ++ nl ++ indent 16 "<div>"
  ++ nl ++ indent 20 "<h4>"
  ++ nl ++ indent 24 "<strong>" ++ role_title ++ lit "</strong>"
  ++ nl ++ indent 24 "<span style=" ++ [QUOT] ++ lit "font-size: 12px;"
     ++ [QUOT] ++ lit ">" ++ model ++ lit "</span>"
  ++ nl ++ indent 20 "</h4>"
  ++ nl ++ indent 20 "<div> " ++ date_str ++ lit " </div>"
  ++ nl ++ indent 16 "</div>"
  ++ nl ++ indent 16 "<br/>"
  ++ nl ++ indent 16 "<br/>"
  ++ nl
  ++ nl ++ indent 16 "<div>"
  ++ nl ++ indent 20 "" ++ content
  ++ nl ++ indent 16 "</div>"
  ++ nl ++ indent 12 "</div>"
  ++ nl ++ indent 12 "<br/>"
  ++ nl ++ indent 10 "".

(** The local variables of [_build_html_message] where the f-string is
    evaluated. *)
Record locals : Type := MkLocals {
  loc_role : str;
  loc_model : str;
  loc_date_str : str;
  loc_content : str
}.

(** The statements of [_build_html_message] before the f-string. *)
Definition _build_html_message_locals (message : message) : result locals :=
  role ← escape (get message "role" (VStr (lit "user")));
  content ← escape (get message "content" (VStr []));
  let content :=
    if contains_rtl content then fix_rtl content 75 else content in
  let timestamp := get message "timestamp" VNone in
  model ← escape (if decide (role = lit "assistant")
                  then get message "model" VNone
                  else VStr []);
  formatted ← (if truthy timestamp then format_timestamp timestamp
               else Ok []);
  date_str ← escape (VStr formatted);
  let content := replace NEWLINE (lit "<br/>") content in
  Ok (MkLocals role model date_str content).

Definition _build_html_message (message : message) : result str :=
  l ← _build_html_message_locals message;
  Ok (html_message (title (loc_role l)) (loc_model l) (loc_date_str l)
        (loc_content l)).

(** ** The document assembler *)

Record ChatTitleMessagesForm : Type := MkForm {
  form_title : str;
  form_messages : list message
}.

(** The attributes of a [PDFGenerator] instance. *)
Record PDFGenerator : Type := MkGenerator {
  html_body : option str;
  messages_html : option str;
  form_data : ChatTitleMessagesForm;
  css : str
}.

(** [str(x)] of an attribute that holds a string or [None]. *)
Definition format_attr (x : option str) : str :=
  match x with
  | Some s => s
  | None => lit "None"
  end.

(** The f-string of [_generate_html_body]. *)
Definition html_document (escaped_title messages : str) : str :=
  nl ++ indent 8 "<html>"
  ++ nl ++ indent 12 "<head>"
  ++ nl ++ indent 16 "<meta name=" ++ [QUOT] ++ lit "viewport" ++ [QUOT]
     ++ lit " content=" ++ [QUOT]
     ++ lit "width=device-width, initial-scale=1.0" ++ [QUOT] ++ lit " />"
  ++ nl ++ indent 12 "</head>"
  ++ nl ++ indent 12 "<body>"
  ++ nl ++ indent 12 "<div>"
  ++ nl ++ indent 16 "<div>"
  ++ nl ++ indent 20 "<h2>" ++ escaped_title ++ lit "</h2>"
  ++ nl ++ indent 20 "" ++ messages
  ++ nl ++ indent 16 "</div>"
  ++ nl ++ indent 12 "</div>"
  ++ nl ++ indent 12 "</body>"
  ++ nl ++ indent 8 "</html>"
  ++ nl ++ indent 8 "".

Definition _generate_html_body (self : PDFGenerator) : result str :=
  let title := form_title (form_data self) in
  let title := if contains_rtl title then fix_rtl title 75 else title in
  escaped_title ← escape (VStr title);
  Ok (html_document escaped_title (format_attr (messages_html self))).

(** ** The PDF renderer *)

(** The names imported from [open_webui.env]; [FONTS_DIR] is declared
    [global] in [generate_chat_pdf]. *)
Record globals : Type := MkGlobals {
  STATIC_DIR : path;
  FONTS_DIR : path
}.

(** What a method call can read and write: the module's globals and the
    attributes of [self]. *)
Record state : Type := MkState {
  module : globals;
  self : PDFGenerator
}.

(** A method body: it ends with a value or an exception, and leaves a
    state behind in both cases. *)
Definition M (A : Type) : Type := state -> state * result A.

#[local] Instance M_ret : MRet M := fun A a s => (s, Ok a).
#[local] Instance M_bind : MBind M := fun A B f m s =>
  match m s with
  | (s', Ok a) => f a s'
  | (s', Raise e) => (s', Raise e)
  end.

Definition lift {A} (r : result A) : M A := fun s => (s, r).
Definition read {A} (f : state -> A) : M A := fun s => (s, Ok (f s)).
Definition write (f : state -> state) : M unit := fun s => (f s, Ok tt).

(** [try: body except Exception as e: handler(e)]. *)
Definition try_except_M {A} (body : M A) (handler : exn -> M A) : M A :=
  fun s =>
    match body s with
    | (s', Ok a) => (s', Ok a)
    | (s', Raise e) => handler e s'
    end.

Definition set_FONTS_DIR (p : path) (s : state) : state :=
  MkState (MkGlobals (STATIC_DIR (module s)) p) (self s).

Definition set_messages_html (h : str) (s : state) : state :=
  MkState (module s)
    (MkGenerator (html_body (self s)) (Some h) (form_data (self s))
       (css (self s))).

Definition set_html_body (h : str) (s : state) : state :=
  MkState (module s)
    (MkGenerator (Some h) (messages_html (self s)) (form_data (self s))
       (css (self s))).

(** [Path(p) / q] and [f"{p}/{name}"]; [Path("./backend/static/fonts")]
    prints as [backend/static/fonts]. *)
Definition path_join (p : path) (q : string) : path := p ++ lit "/" ++ lit q.

(** [l[0]]. *)
Definition first_item {A} (l : list A) : result A :=
  match l with
  | x :: _ => Ok x
  | [] => Raise IndexError
  end.

(** The twelve [pdf.add_font] calls, in order: family, style, file. *)
Definition fonts : list (string * string * string) :=
  [ ("NotoSans", "", "NotoSans-Regular.ttf");
    ("NotoSans", "b", "NotoSans-Bold.ttf");
    ("NotoSans", "i", "NotoSans-Italic.ttf");
    ("NotoSansKR", "", "NotoSansKR-Regular.ttf");
    ("NotoSansJP", "", "NotoSansJP-Regular.ttf");
    ("NotoSansSC", "", "NotoSansSC-Regular.ttf");
    ("NotoSansArabic", "", "NotoSansArabic-Regular.ttf");
    ("NotoSansHebrew", "", "NotoSansHebrew-Regular.ttf");
    ("NotoSansSyriac", "", "NotoSansSyriac-Regular.ttf");
    ("NotoSansThaana", "", "NotoSansThaana-Regular.ttf");
    ("NotoSansSamaritan", "", "NotoSansSamaritan-Regular.ttf");
    ("Twemoji", "", "Twemoji.ttf") ]%string.

Definition fallback_fonts : list string :=
  [ "NotoSansKR"; "NotoSansJP"; "NotoSansSC"; "NotoSansArabic";
    "NotoSansHebrew"; "NotoSansSyriac"; "NotoSansThaana";
    "NotoSansSamaritan"; "Twemoji" ]%string.

Fixpoint add_fonts (fs : list (string * string * string)) (doc : pdf)
    : M pdf :=
  match fs with
  | [] => mret doc
  | (family, style, file) :: rest =>
      dir ← read (fun s => FONTS_DIR (module s));
      doc ← lift (add_font (lit family) (lit style) (path_join dir file) doc);
      add_fonts rest doc
  end.

Definition generate_chat_pdf : M (list Byte.byte) :=
  try_except_M
    (doc ← lift (add_page FPDF);
     dir ← read (fun s => FONTS_DIR (module s));
     _ ← (if negb (path_exists dir)
          then site ← lift (first_item getsitepackages);
               write (set_FONTS_DIR (path_join site "static/fonts"))
          else mret tt);
     dir ← read (fun s => FONTS_DIR (module s));
     _ ← (if negb (path_exists dir)
          then write (set_FONTS_DIR (lit "backend/static/fonts"))
          else mret tt);
     doc ← add_fonts fonts doc;
     doc ← lift (set_font (lit "NotoSans") 12 doc);
     doc ← lift (set_fallback_fonts (map lit fallback_fonts) doc);
     doc ← lift (set_auto_page_break true 15 doc);
     messages ← read (fun s => form_messages (form_data (self s)));
     messages_html_list ← lift (list_comprehension _build_html_message
                                  messages);
     _ ← write (set_messages_html
                  (lit "<div>" ++ concat messages_html_list ++ lit "</div>"));
     me ← read self;
     body ← lift (_generate_html_body me);
     _ ← write (set_html_body body);
     doc ← lift (write_html body doc);
     pdf_bytes ← lift (output doc);
     mret pdf_bytes)
    (fun e => lift (Raise e)).

End Generator.

(** ** What is assumed of the libraries *)

(** The Unicode blocks of the scripts the module names. *)
Definition is_arabic (c : Z) : Prop := 0x0600 <= c <= 0x06FF.
Definition is_hebrew (c : Z) : Prop := 0x0590 <= c <= 0x05FF.
Definition is_syriac (c : Z) : Prop := 0x0700 <= c <= 0x074F.
Definition is_thaana (c : Z) : Prop := 0x0780 <= c <= 0x07BF.
Definition is_samaritan (c : Z) : Prop := 0x0800 <= c <= 0x083F.

(** No angle bracket occurs in [s]. *)
Definition no_angle (s : str) : bool :=
  forallb (fun c => negb ((c =? LT) || (c =? GT))) s.

(** [f] adds no ampersand and, to a text without angle brackets, no angle
    bracket. *)
Definition adds_no_markup (f : str -> str) : Prop :=
  forall s, (count AMP (f s) <= count AMP s)%nat
            /\ (no_angle s = true -> no_angle (f s) = true).

(** [textwrap.wrap]: the lines are made of the characters of the text and
    of spaces (tabs and line breaks become spaces, a long word is cut, a
    run of white space at a line break is dropped), and a text without
    words has no line. *)
Class WrapSpec (L : Libraries) : Prop := {
  wrap_count : forall text width c,
    0 < width -> c <> SPACE ->
    (count c (concat (wrap text width)) <= count c text)%nat;
  wrap_empty : forall width, 0 < width -> wrap [] width = []
}.

(** [arabic_reshaper.reshape] rewrites Arabic letters and
    [bidi.algorithm.get_display] permutes a line, mirroring paired
    punctuation: neither produces an ampersand, nor an angle bracket out of
    a line that has none. *)
Class ShapingSpec (L : Libraries) : Prop := {
  reshape_markup : adds_no_markup reshape;
  get_display_markup : adds_no_markup get_display
}.


(** The case mappings leave [&], [<] and [>] alone and map no other
    character to one of them. *)
Definition is_markup (c : Z) : bool := (c =? AMP) || (c =? LT) || (c =? GT).

Class CaseSpec (L : Libraries) : Prop := {
  to_title_markup : forall c,
    if is_markup c then to_title_full c = [c]
    else forallb (fun d => negb (is_markup d)) (to_title_full c) = true;
  lower_markup : forall whole i c,
    if is_markup c then lower_ucs4 whole i c = [c]
    else forallb (fun d => negb (is_markup d)) (lower_ucs4 whole i c) = true
}.

(** The fields of a [datetime] are within their ranges. *)
Definition valid_datetime (d : datetime) : Prop :=
  1 <= year d <= 9999 /\ 1 <= month d <= 12 /\ 1 <= day d <= 31
  /\ 0 <= hour d <= 23 /\ 0 <= minute d <= 59 /\ 0 <= second d <= 59.

(** [datetime.fromtimestamp] raises [TypeError] on an argument that is not
    a number, and returns well-formed dates. *)
Class ClockSpec (L : Libraries) : Prop := {
  fromtimestamp_type : forall v,
    is_number v = false -> fromtimestamp v = Raise TypeError;
  fromtimestamp_valid : forall v d,
    fromtimestamp v = Ok d -> valid_datetime d
}.

(** ** Shapes of the rendered text *)

(** The five references [html.escape] writes. *)
Definition references : list str :=
  [ lit "amp;"; lit "lt;"; lit "gt;"; lit "quot;"; lit "#x27;" ].

Fixpoint starts_with (p s : str) : bool :=
  match p, s with
  | [], _ => true
  | a :: p', b :: s' => (a =? b) && starts_with p' s'
  | _ :: _, [] => false
  end.

(** Every ampersand of [s] opens one of the five references. *)
Fixpoint amp_wf (s : str) : bool :=
  match s with
  | [] => true
  | c :: rest =>
      (if c =? AMP then existsb (fun r => starts_with r rest) references
       else true)
      && amp_wf rest
  end.

Definition is_digit (c : Z) : bool := (48 <=? c) && (c <=? 57).

(** [YYYY-MM-DD, HH:MM:SS]. *)
Definition timestamp_format (s : str) : bool :=
  match s with
  | [y1; y2; y3; y4; h1; m1; m2; h2; d1; d2; c; sp; hh1; hh2; c1; mm1; mm2;
     c2; ss1; ss2] =>
      forallb is_digit
        [y1; y2; y3; y4; m1; m2; d1; d2; hh1; hh2; mm1; mm2; ss1; ss2]
      && forallb (Z.eqb 45) [h1; h2] && (c =? 44) && (sp =? 32)
      && forallb (Z.eqb 58) [c1; c2]
  | _ => false
  end.

(** [-MM-DD, HH:MM:SS]. *)
Definition time_shape (s : str) : bool :=
  match s with
  | [h1; m1; m2; h2; d1; d2; c; sp; hh1; hh2; c1; mm1; mm2; c2; ss1; ss2] =>
      forallb is_digit [m1; m2; d1; d2; hh1; hh2; mm1; mm2; ss1; ss2]
      && forallb (Z.eqb 45) [h1; h2] && (c =? 44) && (sp =? 32)
      && forallb (Z.eqb 58) [c1; c2]
  | _ => false
  end.

(** [Y-MM-DD, HH:MM:SS] with a year of one to four digits. *)
Definition date_shape (s : str) : bool :=
  existsb (fun k => forallb is_digit (take k s) && time_shape (drop k s))
    [1; 2; 3; 4]%nat.

(** The number a string of decimal digits writes. *)
Definition number_of (s : str) : Z :=
  fold_left (fun acc c => 10 * acc + (c - 48)) s 0.

(** The text fields of a message are strings where the renderer escapes
    them: the role and the content when present, and the model name of an
    assistant message. *)
Definition has_text_fields (m : message) : Prop :=
  exists role content model,
    get m "role" (VStr (lit "user")) = VStr role
    /\ get m "content" (VStr []) = VStr content
    /\ (if decide (escape_str role = lit "assistant")
        then get m "model" VNone else VStr []) = VStr model.

(** ** A sample host

    A small instance of [Libraries] on which the statements below are
    exercised: lines are filled greedily with the words of the text, a
    line with a character of a right-to-left script is displayed mirrored
    end to end,
    the lam-alef pair is shaped into its ligature, case is ASCII, the
    clock is UTC on a 64-bit [time_t], and the only font directory is the
    one under site-packages. *)
Module Sample.

Definition is_whitespace (c : Z) : bool :=
  existsb (Z.eqb c) [9; 10; 11; 12; 13; 32].

(** The words of a text: its maximal runs without white space. *)
Fixpoint words (cur : str) (s : str) : list str :=
  match s with
  | [] => match cur with [] => [] | _ => [cur] end
  | c :: rest =>
      if is_whitespace c
      then match cur with [] => words [] rest | _ => cur :: words [] rest end
      else words (cur ++ [c]) rest
  end.

(** A word longer than the width, cut into pieces of at most the width. *)
Fixpoint chop (fuel : nat) (n : nat) (w : str) : list str :=
  match fuel with
  | O => [w]
  | S fuel' =>
      if (length w <=? n)%nat then [w]
      else take n w :: chop fuel' n (drop n w)
  end.

(** Greedy filling of the lines. *)
Fixpoint fill (n : nat) (cur : str) (ws : list str) : list str :=
  match ws with
  | [] => match cur with [] => [] | _ => [cur] end
  | w :: rest =>
      match cur with
      | [] => fill n w rest
      | _ =>
          if (length cur + 1 + length w <=? n)%nat
          then fill n (cur ++ [SPACE] ++ w) rest
          else cur :: fill n w rest
      end
  end.

Definition wrap (text : str) (width : Z) : list str :=
  let n := Z.to_nat width in
  fill n [] (flat_map (chop (length text) n) (words [] text)).

(** Lam followed by alef becomes the isolated lam-alef ligature. *)
Fixpoint reshape (s : str) : str :=
  match s with
  | a :: (b :: rest) as tail =>
      if (a =? 0x0644) && (b =? 0x0627) then 0xFEFB :: reshape rest
      else a :: reshape tail
  | _ => s
  end.

(** The blocks of the right-to-left scripts of the Basic Multilingual
    Plane: Hebrew to Arabic Extended-A (with Syriac, Thaana, NKo,
    Samaritan and Mandaic), and the Hebrew and Arabic presentation
    forms. *)
Definition right_to_left : list (Z * Z) :=
  [ (0x0590, 0x08FF); (0xFB1D, 0xFDFF); (0xFE70, 0xFEFF) ].

Definition get_display (line : str) : str :=
  if re_search right_to_left line then reverse line else line.

Definition is_upper (c : Z) : bool := (65 <=? c) && (c <=? 90).
Definition is_lower (c : Z) : bool := (97 <=? c) && (c <=? 122).

Definition to_title_full (c : Z) : str :=
  if is_lower c then [c - 32] else [c].
Definition lower_ucs4 (whole : str) (i : nat) (c : Z) : str :=
  if is_upper c then [c + 32] else [c].
Definition is_cased (c : Z) : bool := is_upper c || is_lower c.

(** The seconds of a numeric timestamp. *)
Definition seconds_of (v : value) : result Z :=
  match v with
  | VBool b => Ok (if b then 1 else 0)
  | VInt n => Ok n
  | VFloat FNan => Raise ValueError
  | VFloat (FInf _) => Raise OverflowError
  | VFloat (FFinite m e) =>
      Ok (if 0 <=? e then m * 2 ^ e else m / 2 ^ (- e))
  | _ => Raise TypeError
  end.

(** The proleptic Gregorian date of a day number counted from the epoch. *)
Definition civil_from_days (z : Z) : Z * Z * Z :=
  let z := z + 719468 in
  let era := z / 146097 in
  let doe := z - era * 146097 in
  let yoe := (doe - doe / 1460 + doe / 36524 - doe / 146096) / 365 in
  let doy := doe - (365 * yoe + yoe / 4 - yoe / 100) in
  let mp := (5 * doy + 2) / 153 in
  let d := doy - (153 * mp + 2) / 5 + 1 in
  let m := if mp <? 10 then mp + 3 else mp - 9 in
  let y := yoe + era * 400 in
  (if m <=? 2 then y + 1 else y, m, d).

Definition in_range (lo x hi : Z) : bool := (lo <=? x) && (x <=? hi).

(** The [datetime] constructor checks its fields. *)
Definition new_datetime (y mo d h mi s : Z) : result datetime :=
  if in_range 1 y 9999 && in_range 1 mo 12 && in_range 1 d 31
     && in_range 0 h 23 && in_range 0 mi 59 && in_range 0 s 59
  then Ok (MkDatetime y mo d h mi s)
  else Raise ValueError.

(** A timestamp outside [time_t] is an [OverflowError]; one whose year
    does not fit the [int] of [struct tm] makes [localtime] fail, an
    [OSError]; a year outside 1..9999 is a [ValueError]. *)
Definition fromtimestamp (v : value) : result datetime :=
  t ← seconds_of v;
  if negb (in_range (- 2 ^ 63) t (2 ^ 63 - 1)) then Raise OverflowError
  else
    let '(y, mo, d) := civil_from_days (t / 86400) in
    let r := t mod 86400 in
    if negb (in_range (- 2 ^ 31) (y - 1900) (2 ^ 31 - 1))
    then Raise OSError
    else new_datetime y mo d (r / 3600) (r mod 3600 / 60) (r mod 60).

Definition site_packages : path := lit "/usr/lib/python3/site-packages".
Definition site_fonts : path := path_join site_packages "static/fonts".

Definition path_exists (p : path) : bool := bool_decide (p = site_fonts).

(** The document: its pages, its fonts and the HTML written to it. *)
Record pdf : Type := MkPdf {
  pages : nat;
  loaded : list (str * str * str);
  written : list str
}.

Definition add_font (family style file : str) (doc : pdf) : result pdf :=
  if starts_with (site_fonts ++ lit "/") file
  then Ok (MkPdf (pages doc) (loaded doc ++ [(family, style, file)])
             (written doc))
  else Raise FileNotFoundError.

Definition write_html (html : str) (doc : pdf) : result pdf :=
  Ok (MkPdf (pages doc) (loaded doc) (written doc ++ [html])).

(** [%PDF-1.3]. *)
Definition output (doc : pdf) : result (list Byte.byte) :=
  Ok [Byte.x25; Byte.x50; Byte.x44; Byte.x46; Byte.x2d; Byte.x31; Byte.x2e;
      Byte.x33].

#[export] Instance libraries : Libraries :=
  Build_Libraries wrap reshape get_display to_title_full lower_ucs4 is_cased
    fromtimestamp path_exists [site_packages]
    pdf (MkPdf 0 [] [])
    (fun doc => Ok (MkPdf (S (pages doc)) (loaded doc) (written doc)))
    add_font
    (fun _ _ doc => Ok doc)
    (fun _ doc => Ok doc)
    (fun _ _ doc => Ok doc)
    write_html output.

(** Messages of a transcript. *)
Definition user_message : message :=
  <["role" := VStr (lit "user")]>
    (<["content" := VStr (lit "Hi <b> & there")]>
       (<["model" := VStr (lit "gpt-4")]>
          (<["timestamp" := VInt 1700000000]> ∅))).

Definition assistant_message : message :=
  <["role" := VStr (lit "assistant")]>
    (<["content" := VStr (lit "2 > 1")]>
       (<["model" := VStr (lit "test<model>")]> ∅)).

(** Hebrew "shalom" followed by a script element and an ampersand. *)
Definition rtl_message : message :=
  <["role" := VStr (lit "user")]>
    (<["content" :=
         VStr ([0x05E9; 0x05DC; 0x05D5; 0x05DD]
               ++ lit " <script>alert(1)</script> & more")]> ∅).

Definition epoch_message : message :=
  <["content" := VStr (lit "hi")]> (<["timestamp" := VInt 0]> ∅).

Definition text_timestamp_message : message :=
  <["content" := VStr (lit "hi")]>
    (<["timestamp" := VStr (lit "not a number")]> ∅).

Definition no_model_message : message :=
  <["role" := VStr (lit "assistant")]>
    (<["content" := VStr (lit "hi")]> ∅).

Definition far_future_message : message :=
  <["content" := VStr (lit "hi")]> (<["timestamp" := VInt (10 ^ 20)]> ∅).

(** A generator on a host whose configured font directory exists, one on
    a host where it does not, and one whose transcript cannot be
    rendered. *)
Definition transcript : ChatTitleMessagesForm :=
  MkForm (lit "Hello") [user_message; assistant_message].

Definition configured_state : state :=
  MkState (MkGlobals (lit "/app/backend/open_webui/static") site_fonts)
    (MkGenerator None None transcript (lit "body { }")).

Definition unconfigured_state : state :=
  MkState
    (MkGlobals (lit "/app/backend/open_webui/static")
       (lit "/app/backend/open_webui/static/fonts"))
    (MkGenerator None None transcript (lit "body { }")).

Definition failing_state : state :=
  MkState
    (MkGlobals (lit "/app/backend/open_webui/static")
       (lit "/app/backend/open_webui/static/fonts"))
    (MkGenerator None None (MkForm (lit "Hello") [no_model_message])
       (lit "body { }")).

End Sample.

(** ** Readings of [generate_chat_pdf] *)

Section Readings.
Context {L : Libraries}.

(** The directory the two fallback tests of [generate_chat_pdf] settle on,
    from the configured one. *)
Definition resolve_fonts_dir (configured : path) : path :=
  if path_exists configured then configured
  else match getsitepackages with
       | [] => configured
       | site :: _ =>
           if path_exists (path_join site "static/fonts")
           then path_join site "static/fonts"
           else lit "backend/static/fonts"
       end.

(** The [pdf.add_font] calls on the files of one directory, up to the
    first that raises. *)
Fixpoint load_fonts (dir : path) (fs : list (string * string * string))
    (doc : pdf) : result pdf :=
  match fs with
  | [] => Ok doc
  | (family, style, file) :: rest =>
      doc ← add_font (lit family) (lit style) (path_join dir file) doc;
      load_fonts dir rest doc
  end.

End Readings.

(** ** More of the sample host *)

Module Cases.

(** The sample host without any site-packages directory. *)
Definition bare_host : Libraries :=
  Build_Libraries Sample.wrap Sample.reshape Sample.get_display
    Sample.to_title_full Sample.lower_ucs4 Sample.is_cased
    Sample.fromtimestamp Sample.path_exists []
    Sample.pdf (Sample.MkPdf 0 [] [])
    (fun doc =>
       Ok (Sample.MkPdf (S (Sample.pages doc)) (Sample.loaded doc)
             (Sample.written doc)))
    Sample.add_font
    (fun _ _ doc => Ok doc)
    (fun _ doc => Ok doc)
    (fun _ _ doc => Ok doc)
    Sample.write_html Sample.output.

(** A message with a model name only. *)
Definition model_only_message : message :=
  <["model" := VStr (lit "gpt-4")]> ∅.

(** A message whose role has an ampersand. *)
Definition ampersand_role_message : message :=
  <["role" := VStr (lit "a&b")]> (<["content" := VStr (lit "hi")]> ∅).

(** A message whose role is a number. *)
Definition numeric_role_message : message :=
  <["role" := VInt 3]> (<["content" := VStr (lit "hi")]> ∅).

(** A long left-to-right content of two lines. *)
Definition two_line_message : message :=
  <["content" :=
      VStr (lit "a first line that is well over seventy-five characters "
            ++ lit "long, so that wrapping it would cut it" ++ [NEWLINE]
            ++ lit "second & last")]>
    (<["timestamp" := VInt 1700000000]> ∅).

(** Hebrew "shalom olam". *)
Definition hebrew_text : str :=
  [0x05E9; 0x05DC; 0x05D5; 0x05DD; 32; 0x05E2; 0x05D5; 0x05DC; 0x05DD].

(** A transcript whose second message cannot be rendered. *)
Definition half_rendered_state : state :=
  MkState (MkGlobals (lit "/app/backend/open_webui/static") Sample.site_fonts)
    (MkGenerator (Some (lit "old body")) (Some (lit "old messages"))
       (MkForm (lit "Hello")
          [Sample.user_message; Sample.far_future_message;
           Sample.no_model_message])
       (lit "body { }")).

(** The generator of [Sample.configured_state] after an earlier call. *)
Definition reused_state : state :=
  MkState (MkGlobals (lit "/srv/static") Sample.site_fonts)
    (MkGenerator (Some (lit "old body")) (Some (lit "old messages"))
       Sample.transcript (lit "h2 { color: red }")).

End Cases.

(** * Properties *)

(** ** Strings *)

Lemma count_nil c : count c [] = 0%nat.
Proof. reflexivity. Qed.

Lemma count_cons c x s :
  count c (x :: s) = ((if decide (x = c) then 1 else 0) + count c s)%nat.
Proof.
  unfold count. rewrite filter_cons. destruct (decide (x = c)); reflexivity.
Qed.

Lemma count_app c s t : count c (s ++ t) = (count c s + count c t)%nat.
Proof. unfold count. rewrite filter_app, length_app. reflexivity. Qed.

Lemma count_reverse c s : count c (reverse s) = count c s.
Proof.
  induction s as [|x s IH]; [reflexivity|].
  rewrite reverse_cons, count_app, IH, !count_cons, count_nil. lia.
Qed.

Lemma count_pos_elem c s : (0 < count c s)%nat <-> c ∈ s.
Proof.
  induction s as [|x s IH].
  - rewrite count_nil. split; [lia | intros H; inversion H].
  - rewrite count_cons, elem_of_cons. destruct (decide (x = c)) as [->|Hne].
    + split; [auto | lia].
    + rewrite <- IH. split; [intros H; right; lia | intros [->|H]; [done | lia]].
Qed.

Lemma count_zero_not_elem c s : count c s = 0%nat <-> c ∉ s.
Proof. rewrite <- count_pos_elem. lia. Qed.

Lemma count_concat_elem c (ls : list str) l :
  l ∈ ls -> (count c l <= count c (concat ls))%nat.
Proof.
  induction ls as [|x ls IH]; intros H; [inversion H|].
  simpl. rewrite count_app. apply elem_of_cons in H as [->|H]; [lia|].
  specialize (IH H). lia.
Qed.

Lemma no_angle_app s t : no_angle (s ++ t) = no_angle s && no_angle t.
Proof. apply forallb_app. Qed.

Lemma no_angle_count s :
  no_angle s = true <-> count LT s = 0%nat /\ count GT s = 0%nat.
Proof.
  induction s as [|x s IH]; [by rewrite !count_nil|].
  cbn [no_angle forallb]. fold (no_angle s).
  rewrite andb_true_iff, IH, !count_cons. unfold LT, GT.
  destruct (decide (x = 60)) as [->|H1]; [cbn; split; [intros [? _]; done | lia]|].
  destruct (decide (x = 62)) as [->|H2]; [cbn; split; [intros [? _]; done | lia]|].
  assert (negb ((x =? 60) || (x =? 62)) = true) as ->.
  { destruct (Z.eqb_spec x 60), (Z.eqb_spec x 62); done. }
  tauto.
Qed.

Lemma no_angle_elem s :
  no_angle s = true <-> forall c, c ∈ s -> c <> LT /\ c <> GT.
Proof.
  unfold no_angle. rewrite forallb_forall. unfold LT, GT. split.
  - intros H c Hc. apply list_elem_of_In in Hc. specialize (H c Hc).
    destruct (Z.eqb_spec c 60), (Z.eqb_spec c 62); done.
  - intros H c Hc. apply list_elem_of_In in Hc. destruct (H c Hc).
    destruct (Z.eqb_spec c 60), (Z.eqb_spec c 62); done.
Qed.

Lemma replace_app c rep s t :
  replace c rep (s ++ t) = replace c rep s ++ replace c rep t.
Proof. unfold replace. apply flat_map_app. Qed.

Lemma flat_map_flat_map {A B C} (f : A -> list B) (g : B -> list C) l :
  flat_map g (flat_map f l) = flat_map (fun x => flat_map g (f x)) l.
Proof.
  induction l as [|x l IH]; [reflexivity|].
  simpl. rewrite flat_map_app, IH. reflexivity.
Qed.

(** ** [html.escape] *)

(** The five replacements in sequence amount to one pass that rewrites each
    character on its own: the references written for an earlier character
    contain none of the characters replaced later. *)
Lemma escape_str_flat_map s : escape_str s = flat_map escape_char s.
Proof.
  unfold escape_str, replace. rewrite !flat_map_flat_map.
  apply flat_map_ext. intros c. unfold escape_char, AMP, LT, GT, QUOT, APOS.
  destruct (Z.eqb_spec c 38) as [->|H1]; [reflexivity|]. cbn.
  destruct (Z.eqb_spec c 60) as [->|H2]; [reflexivity|]. cbn.
  destruct (Z.eqb_spec c 62) as [->|H3]; [reflexivity|]. cbn.
  destruct (Z.eqb_spec c 34) as [->|H4]; [reflexivity|]. cbn.
  destruct (Z.eqb_spec c 39) as [->|H5]; reflexivity.
Qed.

Lemma escape_str_app s t : escape_str (s ++ t) = escape_str s ++ escape_str t.
Proof. rewrite !escape_str_flat_map. apply flat_map_app. Qed.

Lemma escape_char_no_angle c : no_angle (escape_char c) = true.
Proof.
  unfold escape_char, AMP, LT, GT, QUOT, APOS.
  destruct (Z.eqb_spec c 38); [reflexivity|].
  destruct (Z.eqb_spec c 60); [reflexivity|].
  destruct (Z.eqb_spec c 62); [reflexivity|].
  destruct (Z.eqb_spec c 34); [reflexivity|].
  destruct (Z.eqb_spec c 39); [reflexivity|].
  cbn. unfold LT, GT.
  destruct (Z.eqb_spec c 60), (Z.eqb_spec c 62); done.
Qed.

(** The escaper leaves no angle bracket. *)
Lemma escape_str_no_angle s : no_angle (escape_str s) = true.
Proof.
  rewrite escape_str_flat_map. induction s as [|c s IH]; [reflexivity|].
  simpl. rewrite no_angle_app, escape_char_no_angle, IH. reflexivity.
Qed.

(** Every ampersand the escaper leaves opens one of its references. *)
Lemma escape_str_amp_wf s : amp_wf (escape_str s) = true.
Proof.
  rewrite escape_str_flat_map. induction s as [|c s IH]; [reflexivity|].
  simpl. unfold escape_char, AMP, LT, GT, QUOT, APOS.
  destruct (Z.eqb_spec c 38); [simpl; exact IH|].
  destruct (Z.eqb_spec c 60); [simpl; exact IH|].
  destruct (Z.eqb_spec c 62); [simpl; exact IH|].
  destruct (Z.eqb_spec c 34); [simpl; exact IH|].
  destruct (Z.eqb_spec c 39); [simpl; exact IH|].
  cbn [app amp_wf]. unfold AMP.
  rewrite (proj2 (Z.eqb_neq c 38)) by done. exact IH.
Qed.

(** A text without the five special characters is escaped to itself. *)
Lemma escape_str_plain s :
  forallb (fun c => negb (existsb (Z.eqb c) [AMP; LT; GT; QUOT; APOS])) s
    = true ->
  escape_str s = s.
Proof.
  rewrite escape_str_flat_map. induction s as [|c s IH]; [reflexivity|].
  cbn [forallb]. rewrite andb_true_iff. intros [Hc Hs].
  simpl. rewrite (IH Hs). unfold escape_char.
  cbn in Hc. rewrite !orb_false_r in Hc.
  destruct (c =? AMP), (c =? LT), (c =? GT), (c =? QUOT), (c =? APOS);
    done.
Qed.

(** [adds_no_markup] from a bound on every count of a markup character. *)
Lemma adds_no_markup_of_count (f : str -> str) :
  (forall c s, is_markup c = true -> (count c (f s) <= count c s)%nat) ->
  adds_no_markup f.
Proof.
  intros H s. split; [apply H; reflexivity|].
  rewrite !no_angle_count. intros [Hl Hg].
  pose proof (H LT s eq_refl). pose proof (H GT s eq_refl). lia.
Qed.

(** ** The sample host meets the assumptions *)

Module SampleFacts.

Lemma chop_concat fuel n w : concat (Sample.chop fuel n w) = w.
Proof.
  revert w. induction fuel as [|fuel IH]; intros w; simpl.
  - apply app_nil_r.
  - destruct (length w <=? n)%nat; simpl.
    + apply app_nil_r.
    + rewrite IH. apply take_drop.
Qed.

Lemma chopped_concat fuel n ws : concat (flat_map (Sample.chop fuel n) ws) = concat ws.
Proof.
  induction ws as [|w ws IH]; [reflexivity|].
  simpl. rewrite concat_app, chop_concat, IH. reflexivity.
Qed.

Lemma fill_count c n ws : forall cur,
  c <> SPACE ->
  count c (concat (Sample.fill n cur ws)) = (count c cur + count c (concat ws))%nat.
Proof.
  induction ws as [|w ws IH]; intros cur Hc.
  - destruct cur; cbn [Sample.fill concat]; [reflexivity|].
    rewrite app_nil_r, count_nil. lia.
  - destruct cur as [|x cur].
    + cbn [Sample.fill concat]. rewrite IH by done. rewrite count_app, count_nil. lia.
    + cbn [Sample.fill]. destruct (_ <=? _)%nat.
      * rewrite IH by done. cbn [concat].
        rewrite !count_app, (count_cons c SPACE []), count_nil.
        destruct (decide (SPACE = c)); [congruence | lia].
      * cbn [concat]. rewrite count_app, IH by done.
        cbn [concat]. rewrite count_app. lia.
Qed.

Lemma words_count c s : forall cur,
  (count c (concat (Sample.words cur s)) <= count c cur + count c s)%nat.
Proof.
  induction s as [|x s IH]; intros cur.
  - destruct cur; cbn [Sample.words concat]; [rewrite !count_nil; lia|].
    rewrite app_nil_r. lia.
  - cbn [Sample.words]. rewrite count_cons. destruct (Sample.is_whitespace x).
    + destruct cur as [|y cur].
      * specialize (IH []). rewrite count_nil in *. lia.
      * cbn [concat]. rewrite count_app. specialize (IH []).
        rewrite count_nil in IH. lia.
    + specialize (IH (cur ++ [x])).
      rewrite count_app, count_cons, count_nil in IH. lia.
Qed.

#[export] Instance wrap_spec : WrapSpec Sample.libraries.
Proof.
  split.
  - intros text width c _ Hc.
    change (wrap text width) with (Sample.wrap text width). unfold Sample.wrap.
    rewrite fill_count by done. rewrite chopped_concat, count_nil.
    pose proof (words_count c text []). rewrite count_nil in *. lia.
  - intros width _. reflexivity.
Qed.

Lemma reshape_pair a b rest :
  Sample.reshape (a :: b :: rest)
  = if (a =? 0x0644) && (b =? 0x0627) then 0xFEFB :: Sample.reshape rest
    else a :: Sample.reshape (b :: rest).
Proof. reflexivity. Qed.

Lemma reshape_count c : forall s,
  c <> 0xFEFB -> (count c (Sample.reshape s) <= count c s)%nat.
Proof.
  intros s Hc. remember (length s) as n eqn:Hn.
  revert s Hn. induction n as [n IH] using lt_wf_ind. intros s ->.
  destruct s as [|a [|b rest]]; [done | done |].
  rewrite reshape_pair. destruct ((a =? 0x0644) && (b =? 0x0627)).
  - rewrite !count_cons.
    destruct (decide (65275 = c)); [congruence|].
    pose proof (IH (length rest) ltac:(simpl; lia) rest eq_refl). lia.
  - rewrite (count_cons c a), (count_cons c a (b :: rest)).
    pose proof (IH (length (b :: rest)) ltac:(simpl; lia) (b :: rest) eq_refl).
    lia.
Qed.

Lemma get_display_count c s : count c (Sample.get_display s) = count c s.
Proof.
  unfold Sample.get_display.
  destruct (re_search Sample.right_to_left s); [apply count_reverse | done].
Qed.

#[export] Instance shaping_spec : ShapingSpec Sample.libraries.
Proof.
  split; apply adds_no_markup_of_count; intros c s Hc.
  - apply reshape_count. intros ->. discriminate.
  - change (get_display s) with (Sample.get_display s).
    rewrite get_display_count. lia.
Qed.

#[export] Instance case_spec : CaseSpec Sample.libraries.
Proof.
  split.
  - intros c. cbn. unfold Sample.to_title_full, Sample.is_lower, is_markup, AMP, LT, GT.
    destruct (Z.eqb_spec c 38) as [->|?]; [reflexivity|].
    destruct (Z.eqb_spec c 60) as [->|?]; [reflexivity|].
    destruct (Z.eqb_spec c 62) as [->|?]; [reflexivity|].
    cbn. destruct (Z.leb_spec 97 c), (Z.leb_spec c 122); cbn;
      rewrite ?andb_true_r, ?negb_true_iff, ?orb_false_iff, ?Z.eqb_neq; lia.
  - intros whole i c. cbn.
    unfold Sample.lower_ucs4, Sample.is_upper, is_markup, AMP, LT, GT.
    destruct (Z.eqb_spec c 38) as [->|?]; [reflexivity|].
    destruct (Z.eqb_spec c 60) as [->|?]; [reflexivity|].
    destruct (Z.eqb_spec c 62) as [->|?]; [reflexivity|].
    cbn. destruct (Z.leb_spec 65 c), (Z.leb_spec c 90); cbn;
      rewrite ?andb_true_r, ?negb_true_iff, ?orb_false_iff, ?Z.eqb_neq; lia.
Qed.

Lemma new_datetime_valid y mo d h mi s dt :
  Sample.new_datetime y mo d h mi s = Ok dt -> valid_datetime dt.
Proof.
  unfold Sample.new_datetime, Sample.in_range.
  destruct (_ && _) eqn:E; [|discriminate]. intros [= <-].
  rewrite !andb_true_iff, !Z.leb_le in E. unfold valid_datetime. cbn. lia.
Qed.

#[export] Instance clock_spec : ClockSpec Sample.libraries.
Proof.
  split.
  - intros v Hv. destruct v; try discriminate; reflexivity.
  - intros v dt. change (fromtimestamp v) with (Sample.fromtimestamp v).
    unfold Sample.fromtimestamp.
    destruct (Sample.seconds_of v) as [t|]; [|discriminate].
    cbn [mbind result_bind].
    destruct (negb _); [discriminate|].
    destruct (Sample.civil_from_days _) as [[y mo] d].
    destruct (negb _); [discriminate|]. apply new_datetime_valid.
Qed.

End SampleFacts.

(** ** The RTL detector *)

(** The seven ranges of [rtl_re] cover U+0590..U+07BF, U+FB50..U+FDFF and
    U+FE70..U+FEFF. *)
Lemma in_class_rtl_re c :
  in_class rtl_re c = true <->
  0x0590 <= c <= 0x07BF \/ 0xFB50 <= c <= 0xFDFF \/ 0xFE70 <= c <= 0xFEFF.
Proof.
  unfold in_class, rtl_re. cbn [existsb fst snd].
  rewrite !orb_true_iff, !andb_true_iff, !Z.leb_le. lia.
Qed.

Lemma in_class_arabic_re c : in_class arabic_re c = true <-> is_arabic c.
Proof.
  unfold in_class, arabic_re, is_arabic. cbn [existsb fst snd].
  rewrite !orb_true_iff, !andb_true_iff, !Z.leb_le. intuition lia.
Qed.

Lemma re_search_true class text :
  re_search class text = true <-> exists c, c ∈ text /\ in_class class c = true.
Proof.
  unfold re_search. rewrite existsb_exists.
  split; intros (c & H1 & H2); exists c; split; try done;
    by apply list_elem_of_In.
Qed.

Lemma re_search_false class text :
  re_search class text = false <-> forall c, c ∈ text -> in_class class c = false.
Proof.
  rewrite <- not_true_iff_false, re_search_true. split.
  - intros H c Hc. apply not_true_iff_false. intros Hin. apply H. eauto.
  - intros H (c & Hc & Hin). rewrite (H c Hc) in Hin. discriminate.
Qed.

(** What the detector decides. *)
Lemma contains_rtl_iff text :
  contains_rtl text = true <->
  exists c, c ∈ text /\
    (0x0590 <= c <= 0x07BF \/ 0xFB50 <= c <= 0xFDFF \/ 0xFE70 <= c <= 0xFEFF).
Proof.
  unfold contains_rtl. rewrite re_search_true.
  split; intros (c & H1 & H2); exists c; split; try done;
    by apply in_class_rtl_re.
Qed.

(** A text with a character of the Arabic blocks (Arabic, Arabic
    Supplement, Arabic Presentation Forms A and B) is detected. *)
Lemma contains_rtl_arabic text c :
  c ∈ text ->
  0x0600 <= c <= 0x06FF \/ 0x0750 <= c <= 0x077F
    \/ 0xFB50 <= c <= 0xFDFF \/ 0xFE70 <= c <= 0xFEFF ->
  contains_rtl text = true.
Proof. intros Hc Hr. apply contains_rtl_iff. exists c. split; [done | lia]. Qed.

(** Hebrew, Syriac and Thaana texts are detected as well. *)
Lemma contains_rtl_hebrew_syriac_thaana text c :
  c ∈ text -> is_hebrew c \/ is_syriac c \/ is_thaana c ->
  contains_rtl text = true.
Proof.
  unfold is_hebrew, is_syriac, is_thaana. intros Hc Hr.
  apply contains_rtl_iff. exists c. split; [done | lia].
Qed.

(** Latin text (below U+0590) and CJK text (U+2E80..U+9FFF, Hangul
    U+AC00..U+D7AF) are not. *)
Lemma contains_rtl_latin_cjk text :
  (forall c, c ∈ text ->
     0 <= c < 0x0590 \/ 0x2E80 <= c <= 0x9FFF \/ 0xAC00 <= c <= 0xD7AF) ->
  contains_rtl text = false.
Proof.
  intros H. apply not_true_iff_false. rewrite contains_rtl_iff.
  intros (c & Hc & Hr). specialize (H c Hc). lia.
Qed.

(** C2 (the code departs from the claim): a text written in the Samaritan
    block, U+0800..U+083F, is not detected, although the comment above
    [rtl_re] lists Samaritan among the scripts it captures. *)
Theorem contains_rtl_misses_samaritan (text : str) :
  (forall c, c ∈ text -> is_samaritan c) ->
  contains_rtl text = false.
Proof.
  intros H. apply not_true_iff_false. rewrite contains_rtl_iff.
  intros (c & Hc & Hr). specialize (H c Hc). unfold is_samaritan in H. lia.
Qed.

Lemma contains_rtl_misses_samaritan_witness :
  (forall c, c ∈ [0x0800] -> is_samaritan c) /\ contains_rtl [0x0800] = false.
Proof.
  assert (forall c, c ∈ [0x0800] -> is_samaritan c) as H.
  { intros c Hc. apply list_elem_of_singleton in Hc as ->.
    unfold is_samaritan. lia. }
  split; [exact H | exact (contains_rtl_misses_samaritan [0x0800] H)].
Defined.

(** ** The RTL normalizer *)

Lemma fold_left_snoc {A B} (f : A -> B) (l : list A) (acc : list B) :
  fold_left (fun acc x => acc ++ [f x]) l acc = acc ++ map f l.
Proof.
  revert acc. induction l as [|x l IH]; intros acc; simpl.
  - symmetry. apply app_nil_r.
  - rewrite IH, <- app_assoc. reflexivity.
Qed.

Lemma join_singleton_map_id sep (ls : list str) (f : str -> str) :
  (forall l, l ∈ ls -> f l = l) -> join sep (map f ls) = join sep ls.
Proof.
  intros H. f_equal. induction ls as [|l ls IH]; [reflexivity|].
  simpl. rewrite H by apply list_elem_of_here. f_equal.
  apply IH. intros l' Hl'. apply H. by apply list_elem_of_further.
Qed.

Section Normalizer.
Context {L : Libraries}.

(** The loop of [fix_rtl], line by line. *)
Lemma fix_rtl_map text width :
  fix_rtl text width
  = join [NEWLINE]
      (map (fun line => get_display (if re_search arabic_re line
                                     then reshape line else line))
         (wrap text width)).
Proof. unfold fix_rtl. cbv zeta. rewrite fold_left_snoc. reflexivity. Qed.

(** C8: each wrapped line with a character of the Arabic block is reshaped
    and then reordered; a line without one, in particular a line made of
    Hebrew, Syriac, Thaana or Samaritan characters, is reordered as it
    is. *)
Theorem fix_rtl_reshapes_arabic_lines (text : str) (width : Z) :
  exists processed_lines,
    fix_rtl text width = join [NEWLINE] processed_lines
    /\ Forall2
         (fun line out =>
            ((exists c, c ∈ line /\ is_arabic c) ->
             out = get_display (reshape line))
            /\ ((forall c, c ∈ line -> ~ is_arabic c) ->
                out = get_display line)
            /\ ((forall c, c ∈ line ->
                   is_hebrew c \/ is_syriac c \/ is_thaana c
                   \/ is_samaritan c) ->
                out = get_display line))
         (wrap text width) processed_lines.
Proof.
  eexists. split; [apply fix_rtl_map|].
  apply Forall2_fmap_r, Forall_Forall2_diag, Forall_forall.
  intros line _.
  assert ((forall c, c ∈ line -> ~ is_arabic c) ->
          re_search arabic_re line = false) as Hno.
  { intros H. apply re_search_false. intros c Hc.
    apply not_true_iff_false. rewrite in_class_arabic_re. by apply H. }
  split; [|split].
  - intros (c & Hc & Ha).
    assert (re_search arabic_re line = true) as ->; [|reflexivity].
    apply re_search_true. exists c. split; [done|].
    by apply in_class_arabic_re.
  - intros H. rewrite (Hno H). reflexivity.
  - intros H. rewrite Hno; [reflexivity|].
    intros c Hc. specialize (H c Hc).
    unfold is_arabic, is_hebrew, is_syriac, is_thaana, is_samaritan in *.
    lia.
Qed.

(** The characters of a wrapped line are characters of the text, or
    spaces. *)
Lemma wrap_elem `{!WrapSpec L} text width line c :
  0 < width -> line ∈ wrap text width -> c ∈ line -> c = SPACE \/ c ∈ text.
Proof.
  intros Hw Hl Hc. destruct (decide (c = SPACE)) as [|Hne]; [by left|].
  right. apply count_pos_elem.
  pose proof (wrap_count text width c Hw Hne).
  pose proof (count_concat_elem c _ _ Hl).
  apply count_pos_elem in Hc. lia.
Qed.

(** When no wrapped line has a character of the Arabic block and the bidi
    pass leaves each of them as it is, [fix_rtl] returns the wrapped lines
    joined by newlines. *)
Lemma fix_rtl_unchanged_lines text width :
  (forall line, line ∈ wrap text width ->
     re_search arabic_re line = false /\ get_display line = line) ->
  fix_rtl text width = join [NEWLINE] (wrap text width).
Proof.
  intros H. rewrite fix_rtl_map. apply join_singleton_map_id.
  intros line Hl. destruct (H line Hl) as [-> Hd]. exact Hd.
Qed.


End Normalizer.



(** ** The timestamp formatter *)

#[local] Ltac Zify.zify_post_hook ::= Z.to_euclidean_division_equations.

Lemma is_digit_digit n : is_digit (digit n) = true.
Proof.
  unfold is_digit, digit. pose proof (Z.mod_pos_bound n 10 ltac:(lia)).
  rewrite andb_true_iff, !Z.leb_le. lia.
Qed.

Lemma year_digits_cases y :
  year_digits y = [digit y]
  \/ year_digits y = [digit (y / 10); digit y]
  \/ year_digits y = [digit (y / 100); digit (y / 10); digit y]
  \/ year_digits y = four_digits y.
Proof.
  unfold year_digits.
  destruct (y <? 10); [tauto|]. destruct (y <? 100); [tauto|].
  destruct (y <? 1000); tauto.
Qed.

(** The formatted date has the shape [Y-MM-DD, HH:MM:SS], with a year of
    one to four digits. *)
Lemma strftime_shape d : date_shape (strftime d) = true.
Proof.
  unfold strftime, two_digits.
  destruct (year_digits_cases (year d)) as [-> | [-> | [-> | ->]]];
    unfold four_digits, date_shape;
    cbn -[is_digit digit]; rewrite !is_digit_digit; reflexivity.
Qed.

(** From the year 1000 on it has the twenty characters of
    [YYYY-MM-DD, HH:MM:SS]. *)
Lemma strftime_format d :
  1000 <= year d -> timestamp_format (strftime d) = true.
Proof.
  intros H. unfold strftime, year_digits, four_digits, two_digits.
  rewrite !(proj2 (Z.ltb_ge _ _)) by lia.
  cbn [app lit map String.list_ascii_of_string timestamp_format forallb].
  rewrite !is_digit_digit. reflexivity.
Qed.

Lemma two_digits_number n : 0 <= n <= 99 -> number_of (two_digits n) = n.
Proof.
  intros H. unfold number_of, two_digits, digit. cbn [fold_left].
  rewrite (Z.mod_small (n / 10) 10) by lia.
  pose proof (Z.div_mod n 10 ltac:(lia)). lia.
Qed.

Lemma four_digits_number n : 0 <= n <= 9999 -> number_of (four_digits n) = n.
Proof.
  intros H. unfold number_of, four_digits, digit. cbn [fold_left].
  rewrite (Z.mod_small (n / 1000) 10) by lia.
  pose proof (Z.div_mod n 10 ltac:(lia)).
  pose proof (Z.div_mod (n / 10) 10 ltac:(lia)).
  pose proof (Z.div_mod (n / 100) 10 ltac:(lia)).
  assert (n / 10 / 10 = n / 100) by (rewrite Z.div_div; lia).
  assert (n / 100 / 10 = n / 1000) by (rewrite Z.div_div; lia).
  lia.
Qed.

(** The digits of the year write the year, without a leading zero. *)
Lemma year_digits_number y :
  1 <= y <= 9999 ->
  number_of (year_digits y) = y
  /\ length (year_digits y)
     = (if y <? 10 then 1%nat else if y <? 100 then 2%nat
        else if y <? 1000 then 3%nat else 4%nat)
  /\ head (year_digits y) <> Some 48.
Proof.
  intros H. unfold year_digits.
  destruct (Z.ltb_spec y 10); [|destruct (Z.ltb_spec y 100);
    [|destruct (Z.ltb_spec y 1000)]].
  - unfold number_of, digit. cbn [fold_left length head].
    rewrite Z.mod_small by lia. repeat split; [lia | intros [= ?]; lia].
  - unfold number_of, digit. cbn [fold_left length head].
    rewrite (Z.mod_small (y / 10) 10) by lia.
    repeat split; [lia | intros [= ?]; lia].
  - unfold number_of, digit. cbn [fold_left length head].
    rewrite (Z.mod_small (y / 100) 10) by lia.
    assert (y / 10 / 10 = y / 100) by (rewrite Z.div_div; lia).
    repeat split; [lia | intros [= ?]; lia].
  - split; [apply four_digits_number; lia|].
    unfold four_digits, digit. cbn [length head].
    rewrite (Z.mod_small (y / 1000) 10) by lia.
    split; [reflexivity | intros [= ?]; lia].
Qed.

(** The fields of a well-formed date are read back from the formatted
    string. *)
Lemma strftime_fields d :
  valid_datetime d ->
  exists y mo dd h mi s,
    strftime d = y ++ lit "-" ++ mo ++ lit "-" ++ dd ++ lit ", " ++ h
                 ++ lit ":" ++ mi ++ lit ":" ++ s
    /\ number_of y = year d /\ number_of mo = month d
    /\ number_of dd = day d /\ number_of h = hour d
    /\ number_of mi = minute d /\ number_of s = second d.
Proof.
  intros (Hy & Hm & Hd & Hh & Hmi & Hs).
  exists (year_digits (year d)), (two_digits (month d)), (two_digits (day d)),
    (two_digits (hour d)), (two_digits (minute d)), (two_digits (second d)).
  split; [reflexivity|].
  rewrite (proj1 (year_digits_number _ Hy)), !two_digits_number by lia. done.
Qed.

(** The formatted date has none of the characters [html.escape]
    rewrites. *)
Lemma strftime_plain d : escape_str (strftime d) = strftime d.
Proof.
  apply escape_str_plain.
  assert (forall n,
    negb (existsb (Z.eqb (digit n)) [AMP; LT; GT; QUOT; APOS]) = true) as Hd.
  { intros n. pose proof (is_digit_digit n) as H. unfold is_digit in H.
    rewrite andb_true_iff, !Z.leb_le in H. cbn.
    unfold AMP, LT, GT, QUOT, APOS.
    rewrite !orb_false_r, negb_true_iff, !orb_false_iff, !Z.eqb_neq. lia. }
  unfold strftime, two_digits.
  destruct (year_digits_cases (year d)) as [-> | [-> | [-> | ->]]];
    unfold four_digits;
    cbn [app lit map String.list_ascii_of_string forallb];
    rewrite !Hd; reflexivity.
Qed.

Section Formatter.
Context {L : Libraries}.

(** What [format_timestamp] does with each outcome of
    [datetime.fromtimestamp]. *)
Lemma format_timestamp_cases timestamp :
  match fromtimestamp timestamp with
  | Ok d => format_timestamp timestamp = Ok (strftime d)
  | Raise ValueError | Raise TypeError => format_timestamp timestamp = Ok []
  | Raise e => format_timestamp timestamp = Raise e
  end.
Proof.
  unfold format_timestamp.
  destruct (fromtimestamp timestamp) as [d|[]]; reflexivity.
Qed.

(** Whenever it returns, it returns the empty string or a string of the
    shape [Y-MM-DD, HH:MM:SS]. *)
Lemma format_timestamp_shape timestamp s :
  format_timestamp timestamp = Ok s -> s = [] \/ date_shape s = true.
Proof.
  pose proof (format_timestamp_cases timestamp) as H.
  destruct (fromtimestamp timestamp) as [d|[]]; rewrite H; intros [= <-];
    auto using strftime_shape.
Qed.

(** An argument that is not a number is formatted to the empty string. *)
Lemma format_timestamp_not_a_number `{!ClockSpec L} timestamp :
  is_number timestamp = false -> format_timestamp timestamp = Ok [].
Proof.
  intros H. pose proof (format_timestamp_cases timestamp) as Hc.
  by rewrite (fromtimestamp_type timestamp H) in Hc.
Qed.

(** C3 (the code departs from the claim): an exception of
    [datetime.fromtimestamp] other than [ValueError] and [TypeError], such
    as the [OverflowError] of a timestamp outside the platform's [time_t],
    is not caught by [format_timestamp]. *)
Theorem format_timestamp_propagates (timestamp : value) (e : exn) :
  e <> ValueError -> e <> TypeError ->
  fromtimestamp timestamp = Raise e ->
  format_timestamp timestamp = Raise e.
Proof.
  intros H1 H2 H. pose proof (format_timestamp_cases timestamp) as Hc.
  rewrite H in Hc. destruct e; done.
Qed.

End Formatter.

Lemma format_timestamp_propagates_witness :
  @format_timestamp Sample.libraries (VInt (10 ^ 20)) = Raise OverflowError.
Proof.
  apply (@format_timestamp_propagates Sample.libraries (VInt (10 ^ 20))
           OverflowError); [discriminate | discriminate | reflexivity].
Defined.

(** On the sample host the epoch is formatted as midnight of 1 January
    1970. *)
Example format_timestamp_epoch :
  @format_timestamp Sample.libraries (VInt 0) = Ok (lit "1970-01-01, 00:00:00").
Proof. reflexivity. Qed.

Example format_timestamp_2023 :
  @format_timestamp Sample.libraries (VInt 1700000000)
  = Ok (lit "2023-11-14, 22:13:20").
Proof. reflexivity. Qed.

(** ** The message renderer *)

Lemma count_join c sep (ls : list str) :
  count c sep = 0%nat -> count c (join sep ls) = count c (concat ls).
Proof.
  intros Hsep. induction ls as [|l ls IH]; [reflexivity|].
  destruct ls as [|l' ls].
  - cbn [join concat]. by rewrite app_nil_r.
  - change (join sep (l :: l' :: ls)) with (l ++ sep ++ join sep (l' :: ls)).
    cbn [concat] in *. rewrite !count_app, IH, Hsep, count_app. lia.
Qed.

Lemma count_concat_map_le c (f : str -> str) (ls : list str) :
  (forall l, (count c (f l) <= count c l)%nat) ->
  (count c (concat (map f ls)) <= count c (concat ls))%nat.
Proof.
  intros H. induction ls as [|l ls IH]; [done|].
  cbn [map concat]. rewrite !count_app. specialize (H l). lia.
Qed.

Lemma no_angle_join sep (ls : list str) :
  no_angle sep = true -> (forall l, l ∈ ls -> no_angle l = true) ->
  no_angle (join sep ls) = true.
Proof.
  intros Hsep. induction ls as [|l ls IH]; intros H; [reflexivity|].
  destruct ls as [|l' ls].
  - apply H, list_elem_of_here.
  - change (join sep (l :: l' :: ls)) with (l ++ sep ++ join sep (l' :: ls)).
    rewrite !no_angle_app, Hsep, (H l) by apply list_elem_of_here.
    rewrite IH; [reflexivity|].
    intros x Hx. apply H. by apply list_elem_of_further.
Qed.

Lemma count_markup_free c s :
  is_markup c = true ->
  forallb (fun d => negb (is_markup d)) s = true ->
  count c s = 0%nat.
Proof.
  intros Hc Hs. apply count_zero_not_elem. intros Hin.
  rewrite forallb_forall in Hs. apply list_elem_of_In in Hin.
  specialize (Hs c Hin). rewrite Hc in Hs. discriminate.
Qed.

Lemma no_angle_replace_newline s :
  no_angle s = true ->
  forall c, c ∈ replace NEWLINE (lit "<br/>") s ->
    c ∈ lit "<br/>" \/ (c <> LT /\ c <> GT).
Proof.
  intros Hs c Hc. unfold replace in Hc.
  apply list_elem_of_In, in_flat_map in Hc as (x & Hx & Hc).
  destruct (x =? NEWLINE).
  - left. by apply list_elem_of_In.
  - right. destruct Hc as [<-|[]].
    apply (proj1 (no_angle_elem s) Hs). by apply list_elem_of_In.
Qed.

Section Renderer.
Context {L : Libraries}.

Lemma adds_no_markup_line `{!ShapingSpec L} :
  adds_no_markup
    (fun line => get_display (if re_search arabic_re line
                              then reshape line else line)).
Proof.
  intros line.
  destruct (get_display_markup
              (if re_search arabic_re line then reshape line else line))
    as [Ha Hn].
  destruct (reshape_markup line) as [Ha' Hn'].
  destruct (re_search arabic_re line); split; auto; lia.
Qed.

(** The normalizer adds no ampersand to its text. *)
Lemma fix_rtl_amp `{!WrapSpec L} `{!ShapingSpec L} text width :
  0 < width -> (count AMP (fix_rtl text width) <= count AMP text)%nat.
Proof.
  intros Hw. rewrite fix_rtl_map, count_join by reflexivity.
  etransitivity; [apply count_concat_map_le|].
  - intros l. apply adds_no_markup_line.
  - apply wrap_count; [done | discriminate].
Qed.

(** The normalizer adds no angle bracket to a text that has none. *)
Lemma fix_rtl_no_angle `{!WrapSpec L} `{!ShapingSpec L} text width :
  0 < width -> no_angle text = true -> no_angle (fix_rtl text width) = true.
Proof.
  intros Hw Ht. rewrite fix_rtl_map. apply no_angle_join; [reflexivity|].
  intros out Hout. apply list_elem_of_fmap in Hout as (line & -> & Hline).
  apply adds_no_markup_line. apply no_angle_elem. intros c Hc.
  destruct (wrap_elem text width line c Hw Hline Hc) as [->|Hin].
  - split; discriminate.
  - by apply (proj1 (no_angle_elem text) Ht).
Qed.

(** Title-casing keeps every [&], [<] and [>] and adds none. *)
Lemma do_title_count `{!CaseSpec L} c whole :
  is_markup c = true ->
  forall rest i previous_is_cased,
    count c (do_title whole i rest previous_is_cased) = count c rest.
Proof.
  intros Hc. induction rest as [|x rest IH]; intros i b; [reflexivity|].
  cbn [do_title]. rewrite count_app, IH, count_cons. f_equal.
  assert (forall mapped,
    (if is_markup x then mapped = [x]
     else forallb (fun d => negb (is_markup d)) mapped = true) ->
    count c mapped = if decide (x = c) then 1%nat else 0%nat) as Hmap.
  { intros mapped Hm. destruct (is_markup x) eqn:Hx.
    - subst mapped. rewrite count_cons, count_nil.
      destruct (decide (x = c)); reflexivity.
    - rewrite (count_markup_free c mapped Hc Hm).
      destruct (decide (x = c)) as [->|]; [congruence | reflexivity]. }
  destruct b; apply Hmap; [apply lower_markup | apply to_title_markup].
Qed.

Lemma title_count `{!CaseSpec L} c s :
  is_markup c = true -> count c (title s) = count c s.
Proof. intros Hc. by apply do_title_count. Qed.

Lemma title_no_angle `{!CaseSpec L} s :
  no_angle s = true -> no_angle (title s) = true.
Proof.
  rewrite !no_angle_count, !title_count by reflexivity. done.
Qed.

(** The statements of [_build_html_message], read off a successful run. *)
Lemma build_html_message_locals_inv m l :
  _build_html_message_locals m = Ok l ->
  exists role content model formatted,
    get m "role" (VStr (lit "user")) = VStr role
    /\ get m "content" (VStr []) = VStr content
    /\ (if decide (escape_str role = lit "assistant")
        then get m "model" VNone else VStr []) = VStr model
    /\ (if truthy (get m "timestamp" VNone)
        then format_timestamp (get m "timestamp" VNone) else Ok [])
       = Ok formatted
    /\ l = MkLocals (escape_str role) (escape_str model)
             (escape_str formatted)
             (replace NEWLINE (lit "<br/>")
                (if contains_rtl (escape_str content)
                 then fix_rtl (escape_str content) 75
                 else escape_str content)).
Proof.
  unfold _build_html_message_locals.
  destruct (get m "role" _) as [| | | |role| |] eqn:Hr; try discriminate.
  destruct (get m "content" _) as [| | | |content| |] eqn:Hc;
    try discriminate.
  cbn [escape mbind result_bind].
  destruct (if decide (escape_str role = lit "assistant") then _ else _)
    as [| | | |model| |] eqn:Hm; try discriminate.
  cbn [escape mbind result_bind].
  destruct (if truthy _ then _ else _) as [formatted|] eqn:Hf;
    [|discriminate].
  cbn [escape mbind result_bind]. intros [= <-].
  exists role, content, model, formatted. done.
Qed.

(** Conversely, the run succeeds as soon as the text fields are strings
    and the timestamp step returns. *)
Lemma build_html_message_locals_ok m role content model formatted :
  get m "role" (VStr (lit "user")) = VStr role ->
  get m "content" (VStr []) = VStr content ->
  (if decide (escape_str role = lit "assistant")
   then get m "model" VNone else VStr []) = VStr model ->
  (if truthy (get m "timestamp" VNone)
   then format_timestamp (get m "timestamp" VNone) else Ok []) = Ok formatted ->
  _build_html_message_locals m
  = Ok (MkLocals (escape_str role) (escape_str model) (escape_str formatted)
          (replace NEWLINE (lit "<br/>")
             (if contains_rtl (escape_str content)
              then fix_rtl (escape_str content) 75
              else escape_str content))).
Proof.
  intros Hr Hc Hm Hf. unfold _build_html_message_locals.
  rewrite Hr, Hc. cbn [escape mbind result_bind].
  rewrite Hm. cbn [escape mbind result_bind].
  rewrite Hf. reflexivity.
Qed.

Lemma build_html_message_inv m out :
  _build_html_message m = Ok out ->
  exists l, _build_html_message_locals m = Ok l
    /\ out = html_message (title (loc_role l)) (loc_model l)
               (loc_date_str l) (loc_content l).
Proof.
  unfold _build_html_message.
  destruct (_build_html_message_locals m) as [l|]; [|discriminate].
  intros [= <-]. eauto.
Qed.

(** X23: in every rendered fragment the role, the model name, the date and
    the content are the output of [html.escape], title-cased for the role
    and passed through [fix_rtl] for a content with right-to-left
    characters; none of them has an angle bracket, so that the only ones of
    the content block are those of the line breaks the renderer writes;
    the ampersands of the model name, the date and a content without
    right-to-left characters each open a reference, and neither [fix_rtl]
    nor the title-casing adds an ampersand to the escaped text. *)
Theorem user_text_is_escaped `{!WrapSpec L} `{!ShapingSpec L} `{!CaseSpec L}
    (m : message) (out : str) :
  _build_html_message m = Ok out ->
  exists role content model formatted body,
    get m "role" (VStr (lit "user")) = VStr role
    /\ get m "content" (VStr []) = VStr content
    /\ (model = [] \/ m !! "model" = Some (VStr model))
    /\ body = (if contains_rtl (escape_str content)
               then fix_rtl (escape_str content) 75
               else escape_str content)
    /\ out = html_message (title (escape_str role)) (escape_str model)
               (escape_str formatted) (replace NEWLINE (lit "<br/>") body)
    /\ no_angle (title (escape_str role)) = true
    /\ no_angle (escape_str model) = true
    /\ no_angle (escape_str formatted) = true
    /\ no_angle body = true
    /\ (forall c, c ∈ replace NEWLINE (lit "<br/>") body ->
          c ∈ lit "<br/>" \/ (c <> LT /\ c <> GT))
    /\ amp_wf (escape_str model) = true
    /\ amp_wf (escape_str formatted) = true
    /\ (contains_rtl (escape_str content) = false -> amp_wf body = true)
    /\ (count AMP body <= count AMP (escape_str content))%nat
    /\ count AMP (title (escape_str role)) = count AMP (escape_str role).
Proof.
  intros H. apply build_html_message_inv in H as (l & Hl & ->).
  apply build_html_message_locals_inv in Hl
    as (role & content & model & formatted & Hr & Hc & Hm & Hf & ->).
  exists role, content, model, formatted.
  eexists. split; [exact Hr|]. split; [exact Hc|].
  assert (no_angle (if contains_rtl (escape_str content)
                    then fix_rtl (escape_str content) 75
                    else escape_str content) = true) as Hbody.
  { destruct (contains_rtl (escape_str content)).
    - apply fix_rtl_no_angle; [done | apply escape_str_no_angle].
    - apply escape_str_no_angle. }
  split.
  { destruct (decide (escape_str role = lit "assistant")).
    - right. unfold get in Hm. destruct (m !! "model"); congruence.
    - left. congruence. }
  split; [reflexivity|].
  split; [reflexivity|].
  split; [apply title_no_angle, escape_str_no_angle|].
  split; [apply escape_str_no_angle|].
  split; [apply escape_str_no_angle|].
  split; [exact Hbody|].
  split; [by apply no_angle_replace_newline|].
  split; [apply escape_str_amp_wf|].
  split; [apply escape_str_amp_wf|].
  split; [intros ->; apply escape_str_amp_wf|].
  split; [|by apply title_count].
  destruct (contains_rtl (escape_str content)); [by apply fix_rtl_amp | done].
Qed.

End Renderer.

Lemma user_text_is_escaped_witness :
  exists body,
    @_build_html_message Sample.libraries Sample.rtl_message
    = Ok (html_message (lit "User") [] []
            (replace NEWLINE (lit "<br/>") body))
    /\ no_angle body = true
    /\ (count AMP body <= 5)%nat.
Proof.
  destruct (@user_text_is_escaped Sample.libraries SampleFacts.wrap_spec
              SampleFacts.shaping_spec SampleFacts.case_spec
              Sample.rtl_message
              (html_message (lit "User") [] []
                 (lit "erom ;pma& ;tg&tpircs/;tl&)1(trela;tg&tpircs;tl& "
                  ++ [0x05DD; 0x05D5; 0x05DC; 0x05E9]))
              eq_refl)
    as (role & content & model & formatted & body & Hr & Hc & _ & Hb & _ & _
        & _ & _ & Hn & _ & _ & _ & _ & Ha & _).
  exists body. injection Hc as <-.
  split; [rewrite Hb; reflexivity|]. split; [exact Hn | exact Ha].
Defined.

(** On the sample host, where a right-to-left line is displayed mirrored
    end to end, the references of such a content are mirrored with it:
    what [escape_str_amp_wf] states of the escaped text is not kept by
    [fix_rtl]. *)
Example fix_rtl_mirrors_references :
  let content := [0x05E9; 0x05DC; 0x05D5; 0x05DD] ++ lit " & more" in
  amp_wf (escape_str content) = true
  /\ @fix_rtl Sample.libraries (escape_str content) 75
     = lit "erom ;pma& " ++ [0x05DD; 0x05D5; 0x05DC; 0x05E9]
  /\ amp_wf (@fix_rtl Sample.libraries (escape_str content) 75) = false.
Proof. repeat split. Qed.

Lemma amp_wf_app_r a b : amp_wf (a ++ b) = true -> amp_wf b = true.
Proof.
  induction a as [|c a IH]; [done|].
  cbn [app amp_wf]. rewrite andb_true_iff. intros [_ H]. by apply IH.
Qed.

Section Casing.
Context {L : Libraries}.

(** The loop of [str.title] on a concatenation: the second part is cased
    after the last character of the first. *)
Lemma do_title_app whole a : forall b i previous_is_cased,
  do_title whole i (a ++ b) previous_is_cased
  = do_title whole i a previous_is_cased
    ++ do_title whole (i + length a) b
         (fold_left (fun _ c => is_cased c) a previous_is_cased).
Proof.
  induction a as [|c a IH]; intros b i p.
  - cbn [app do_title length fold_left]. by rewrite Nat.add_0_r.
  - cbn [app do_title length fold_left].
    rewrite IH, <- app_assoc, Nat.add_succ_r. reflexivity.
Qed.

(** A right-to-left content is normalized after it is escaped: what the
    bidi pass reorders are the characters of the references. *)
Lemma rtl_content_is_normalized_escaped m l content :
  _build_html_message_locals m = Ok l ->
  get m "content" (VStr []) = VStr content ->
  contains_rtl (escape_str content) = true ->
  loc_content l
  = replace NEWLINE (lit "<br/>") (fix_rtl (escape_str content) 75).
Proof.
  intros Hl Hc Hrtl. apply build_html_message_locals_inv in Hl
    as (role & content' & model & formatted & _ & Hc' & _ & _ & ->).
  rewrite Hc in Hc'. injection Hc' as <-.
  cbn [loc_content]. by rewrite Hrtl.
Qed.

(** C1 (the code departs from the claim): the role is title-cased after
    it is escaped.  Where the case tables are those of ASCII (the title
    case of [a] is [A], and [&] is not a cased character), the reference
    written for an ampersand of the role is rendered [&Amp;...]: the
    [strong] element of the fragment holds an ampersand that opens none of
    the references of [html.escape]. *)
Theorem role_reference_is_title_cased `{!CaseSpec L} (m : message)
    (out before after : str) :
  to_title_full 97 = [65] ->
  is_cased AMP = false ->
  _build_html_message m = Ok out ->
  get m "role" (VStr (lit "user")) = VStr (before ++ [AMP] ++ after) ->
  exists head tail rest,
    out = nl ++ indent 12 "<div>" ++ nl ++ indent 16 "<div>"
          ++ nl ++ indent 20 "<h4>"
          ++ nl ++ indent 24 "<strong>"
          ++ (head ++ lit "&A" ++ tail) ++ lit "</strong>" ++ rest
    /\ head ++ lit "&A" ++ tail
       = title (escape_str (before ++ [AMP] ++ after))
    /\ amp_wf (head ++ lit "&A" ++ tail) = false.
Proof.
  intros Ha Hamp H Hrole.
  assert (exists head tail,
    title (escape_str (before ++ [AMP] ++ after)) = head ++ lit "&A" ++ tail)
    as (head & tail & Ht).
  { rewrite !escape_str_app.
    change (escape_str [AMP]) with (AMP :: 97 :: lit "mp;").
    unfold title. rewrite do_title_app. cbn [app do_title].
    pose proof (to_title_markup AMP) as Ht.
    change (is_markup AMP) with true in Ht. cbv iota in Ht.
    assert (forall whole i, lower_ucs4 whole i AMP = [AMP]) as Hl.
    { intros whole i. pose proof (lower_markup whole i AMP) as Hl.
      change (is_markup AMP) with true in Hl. exact Hl. }
    assert (forall (p : bool) whole i,
      (if p then lower_ucs4 whole i AMP else to_title_full AMP) = [AMP])
      as Hmap.
    { intros [] whole i; [apply Hl | exact Ht]. }
    rewrite Hmap, Hamp, Ha. eexists _, _. reflexivity. }
  set (role := before ++ [AMP] ++ after) in *.
  apply build_html_message_inv in H as (l & Hl & ->).
  apply build_html_message_locals_inv in Hl
    as (role' & content & model & formatted & Hr & _ & _ & _ & ->).
  rewrite Hrole in Hr. injection Hr as <-.
  cbn [loc_role loc_model loc_date_str loc_content].
  exists head, tail. rewrite Ht. unfold html_message. eexists.
  split; [reflexivity|]. split; [reflexivity|].
  apply not_true_iff_false. intros Hwf.
  apply amp_wf_app_r in Hwf. cbn [lit map String.list_ascii_of_string app]
    in Hwf. discriminate.
Qed.

End Casing.

Lemma role_reference_is_title_cased_witness :
  exists head tail rest,
    html_message (lit "A&Amp;B") [] [] (lit "hi")
    = nl ++ indent 12 "<div>" ++ nl ++ indent 16 "<div>"
      ++ nl ++ indent 20 "<h4>"
      ++ nl ++ indent 24 "<strong>"
      ++ (head ++ lit "&A" ++ tail) ++ lit "</strong>" ++ rest
    /\ head ++ lit "&A" ++ tail
       = @title Sample.libraries (escape_str (lit "a" ++ [AMP] ++ lit "b"))
    /\ amp_wf (head ++ lit "&A" ++ tail) = false.
Proof.
  exact (@role_reference_is_title_cased Sample.libraries
           SampleFacts.case_spec Cases.ampersand_role_message
           (html_message (lit "A&Amp;B") [] [] (lit "hi"))
           (lit "a") (lit "b") eq_refl eq_refl eq_refl eq_refl).
Defined.

(** On the sample host the role [a&b] is rendered [A&Amp;B]. *)
Example ampersand_role_is_rendered :
  @_build_html_message Sample.libraries Cases.ampersand_role_message
  = Ok (html_message (lit "A&Amp;B") [] [] (lit "hi"))
  /\ amp_wf (lit "A&Amp;B") = false
  /\ amp_wf (escape_str (lit "a&b")) = true.
Proof. repeat split. Qed.

Section Fields.
Context {L : Libraries}.

(** A message whose role is not ["assistant"] is rendered with an empty
    model name. *)
Lemma model_name_suppressed m out role :
  _build_html_message m = Ok out ->
  get m "role" (VStr (lit "user")) = VStr role ->
  escape_str role <> lit "assistant" ->
  exists date_str content,
    out = html_message (title (escape_str role)) [] date_str content.
Proof.
  intros H Hrole Hne. apply build_html_message_inv in H as (l & Hl & ->).
  apply build_html_message_locals_inv in Hl
    as (role' & content & model & formatted & Hr & Hc & Hm & Hf & ->).
  rewrite Hrole in Hr. injection Hr as <-.
  destruct (decide (escape_str role = lit "assistant")); [done|].
  injection Hm as <-. cbn [loc_role loc_model loc_date_str loc_content].
  eauto.
Qed.

(** The model slot of a fragment, by role. *)
Lemma model_name_in_template (m : message) (out : str) :
  _build_html_message m = Ok out ->
  (get m "role" (VStr (lit "user")) = VStr (lit "user") ->
   exists date_str content,
     out = html_message (title (lit "user")) [] date_str content)
  /\ (get m "role" (VStr (lit "user")) = VStr (lit "assistant") ->
      exists model date_str content,
        m !! "model" = Some (VStr model)
        /\ out = html_message (title (lit "assistant")) (escape_str model)
                   date_str content).
Proof.
  intros H. split; intros Hrole.
  - apply (model_name_suppressed m out (lit "user") H Hrole). discriminate.
  - apply build_html_message_inv in H as (l & Hl & ->).
    apply build_html_message_locals_inv in Hl
      as (role & content & model & formatted & Hr & Hc & Hm & Hf & ->).
    rewrite Hrole in Hr. injection Hr as <-.
    change (escape_str (lit "assistant")) with (lit "assistant") in *.
    destruct (decide (lit "assistant" = lit "assistant")); [|done].
    exists model. do 2 eexists. split; [|reflexivity].
    unfold get in Hm. destruct (m !! "model"); congruence.
Qed.

(** C6: the fragment of a message whose role is ["user"] opens with the
    heading of the title-cased role followed by an empty [span] element,
    whatever the model field; the fragment of a message whose role is
    ["assistant"] opens with the heading of the role followed by the
    [span] element of its model name, escaped. *)
Theorem model_name_by_role (m : message) (out : str) :
  _build_html_message m = Ok out ->
  (get m "role" (VStr (lit "user")) = VStr (lit "user") ->
   exists rest,
     out = nl ++ indent 12 "<div>" ++ nl ++ indent 16 "<div>"
           ++ nl ++ indent 20 "<h4>"
           ++ nl ++ indent 24 "<strong>" ++ title (lit "user")
           ++ lit "</strong>"
           ++ nl ++ indent 24 "<span style=" ++ [QUOT]
           ++ lit "font-size: 12px;" ++ [QUOT] ++ lit ">"
           ++ lit "</span>" ++ rest)
  /\ (get m "role" (VStr (lit "user")) = VStr (lit "assistant") ->
      exists model rest,
        m !! "model" = Some (VStr model)
        /\ out = nl ++ indent 12 "<div>" ++ nl ++ indent 16 "<div>"
                 ++ nl ++ indent 20 "<h4>"
                 ++ nl ++ indent 24 "<strong>" ++ title (lit "assistant")
                 ++ lit "</strong>"
                 ++ nl ++ indent 24 "<span style=" ++ [QUOT]
                 ++ lit "font-size: 12px;" ++ [QUOT] ++ lit ">"
                 ++ escape_str model ++ lit "</span>" ++ rest).
Proof.
  intros H. destruct (model_name_in_template m out H) as [Hu Ha].
  split; intros Hrole.
  - destruct (Hu Hrole) as (date_str & content & ->).
    unfold html_message. eexists. reflexivity.
  - destruct (Ha Hrole) as (model & date_str & content & Hm & ->).
    exists model. unfold html_message. eexists. split; [exact Hm|].
    reflexivity.
Qed.

(** C4, as the code has it: a message whose timestamp is absent, [None],
    zero or another false value, or is not a number, is rendered with an
    empty date, provided its text fields are strings. *)
Theorem blank_timestamp `{!ClockSpec L} (m : message) :
  has_text_fields m ->
  truthy (get m "timestamp" VNone) = false
    \/ is_number (get m "timestamp" VNone) = false ->
  exists role model content,
    _build_html_message m = Ok (html_message role model [] content).
Proof.
  intros (role & content & model & Hr & Hc & Hm) Hts.
  assert ((if truthy (get m "timestamp" VNone)
           then format_timestamp (get m "timestamp" VNone) else Ok [])
          = Ok []) as Hf.
  { destruct Hts as [->|Hn]; [reflexivity|].
    rewrite (format_timestamp_not_a_number _ Hn).
    by destruct (truthy _). }
  unfold _build_html_message.
  rewrite (build_html_message_locals_ok m role content model [] Hr Hc Hm Hf).
  cbn [mbind result_bind loc_role loc_model loc_date_str loc_content].
  eauto.
Qed.

(** A true numeric timestamp is formatted by [format_timestamp], whose
    exceptions leave the renderer. *)
Lemma numeric_timestamp_is_formatted m l :
  _build_html_message_locals m = Ok l ->
  truthy (get m "timestamp" VNone) = true ->
  exists formatted,
    format_timestamp (get m "timestamp" VNone) = Ok formatted
    /\ loc_date_str l = escape_str formatted.
Proof.
  intros Hl Ht. apply build_html_message_locals_inv in Hl
    as (role & content & model & formatted & Hr & Hc & Hm & Hf & ->).
  rewrite Ht in Hf. eauto.
Qed.

End Fields.

Lemma model_name_by_role_witness :
  @_build_html_message Sample.libraries Sample.user_message
  = Ok (html_message (lit "User") [] (lit "2023-11-14, 22:13:20")
          (lit "Hi &lt;b&gt; &amp; there"))
  /\ @_build_html_message Sample.libraries Sample.assistant_message
     = Ok (html_message (lit "Assistant") (lit "test&lt;model&gt;") []
             (lit "2 &gt; 1"))
  /\ (exists rest,
        html_message (lit "User") [] (lit "2023-11-14, 22:13:20")
          (lit "Hi &lt;b&gt; &amp; there")
        = nl ++ indent 12 "<div>" ++ nl ++ indent 16 "<div>"
          ++ nl ++ indent 20 "<h4>"
          ++ nl ++ indent 24 "<strong>" ++ lit "User" ++ lit "</strong>"
          ++ nl ++ indent 24 "<span style=" ++ [QUOT]
          ++ lit "font-size: 12px;" ++ [QUOT] ++ lit ">"
          ++ lit "</span>" ++ rest)
  /\ (exists model rest,
        Sample.assistant_message !! "model" = Some (VStr model)
        /\ html_message (lit "Assistant") (lit "test&lt;model&gt;") []
             (lit "2 &gt; 1")
           = nl ++ indent 12 "<div>" ++ nl ++ indent 16 "<div>"
             ++ nl ++ indent 20 "<h4>"
             ++ nl ++ indent 24 "<strong>" ++ lit "Assistant"
             ++ lit "</strong>"
             ++ nl ++ indent 24 "<span style=" ++ [QUOT]
             ++ lit "font-size: 12px;" ++ [QUOT] ++ lit ">"
             ++ escape_str model ++ lit "</span>" ++ rest).
Proof.
  split; [reflexivity|]. split; [reflexivity|]. split.
  - exact (proj1 (@model_name_by_role Sample.libraries Sample.user_message
                    _ eq_refl) eq_refl).
  - exact (proj2 (@model_name_by_role Sample.libraries
                    Sample.assistant_message _ eq_refl) eq_refl).
Defined.

Lemma blank_timestamp_witness :
  exists role model content,
    @_build_html_message Sample.libraries Sample.text_timestamp_message
    = Ok (html_message role model [] content).
Proof.
  apply (@blank_timestamp Sample.libraries SampleFacts.clock_spec
           Sample.text_timestamp_message).
  - exists (lit "user"), (lit "hi"), []. repeat split.
  - right. reflexivity.
Defined.

(** C4, as the claim has it, fails: the message with timestamp 0 is
    rendered with an empty date, not with the date [format_timestamp]
    returns for 0. *)
Lemma epoch_timestamp_is_blank :
  get Sample.epoch_message "timestamp" VNone = VInt 0
  /\ @format_timestamp Sample.libraries (VInt 0)
     = Ok (lit "1970-01-01, 00:00:00")
  /\ @_build_html_message Sample.libraries Sample.epoch_message
     = Ok (html_message (lit "User") [] [] (lit "hi"))
  /\ ~ (exists l,
          @_build_html_message_locals Sample.libraries Sample.epoch_message
          = Ok l
          /\ timestamp_format (loc_date_str l) = true).
Proof.
  split; [reflexivity|]. split; [reflexivity|]. split; [reflexivity|].
  intros (l & Hl & Hf).
  assert (@_build_html_message_locals Sample.libraries Sample.epoch_message
          = Ok (MkLocals (lit "user") [] [] (lit "hi"))) as H by reflexivity.
  rewrite H in Hl. injection Hl as <-. discriminate.
Qed.

(** ** The document assembler and the PDF renderer *)


(** It raises as soon as one element does. *)
Lemma list_comprehension_raises {A B} (f : A -> result B) xs x e :
  x ∈ xs -> f x = Raise e -> exists e', list_comprehension f xs = Raise e'.
Proof.
  intros Hin Hx. induction xs as [|y xs IH]; [inversion Hin|].
  cbn [list_comprehension]. destruct (f y) as [b|e'] eqn:Hy;
    cbn [mbind result_bind]; [|eauto].
  apply elem_of_cons in Hin as [->|Hin]; [congruence|].
  destruct (IH Hin) as [e'' ->]. cbn [mbind result_bind]. eauto.
Qed.

Section Document.
Context {L : Libraries}.

Lemma add_fonts_run fs : forall doc s, exists r, add_fonts fs doc s = (s, r).
Proof.
  induction fs as [|[[family style] file] fs IH]; intros doc s.
  - eexists. reflexivity.
  - cbn [add_fonts]. unfold mbind, M_bind, read, lift.
    destruct (add_font _ _ _ doc) as [doc'|e].
    + apply IH.
    + eexists. reflexivity.
Qed.

(** The title is a string: the body is always assembled. *)
Lemma generate_html_body_eq me :
  _generate_html_body me
  = Ok (html_document
          (escape_str (if contains_rtl (form_title (form_data me))
                       then fix_rtl (form_title (form_data me)) 75
                       else form_title (form_data me)))
          (format_attr (messages_html me))).
Proof. reflexivity. Qed.

(** One step of a run of [generate_chat_pdf]: a case on the outcome of the
    next library call. *)
Ltac run_step :=
  match goal with
  | |- context [add_fonts ?f ?d ?s] =>
      let r := fresh "r" in destruct (add_fonts_run f d s) as [r ->]
  | |- context [_generate_html_body ?me] =>
      rewrite (generate_html_body_eq me)
  | |- context [first_item ?l] =>
      destruct l eqn:?; cbn [first_item]
  | |- context [path_exists ?p] =>
      destruct (path_exists p) eqn:?
  | |- context [match ?x with _ => _ end] =>
      lazymatch type of x with
      | result _ => destruct x eqn:?
      | bool => destruct x eqn:?
      | list _ => destruct x eqn:?
      end
  end;
  cbv beta iota delta [negb];
  cbn [module self FONTS_DIR STATIC_DIR set_FONTS_DIR set_messages_html
       set_html_body html_body messages_html form_data css fst snd].

Ltac run_generate :=
  cbv [generate_chat_pdf try_except_M mbind M_bind mret M_ret lift read
       write];
  cbv beta iota;
  repeat run_step.

(** A call never rebinds [STATIC_DIR], nor the form and the stylesheet of
    the instance. *)
Lemma generate_chat_pdf_frame s :
  STATIC_DIR (module (generate_chat_pdf s).1) = STATIC_DIR (module s)
  /\ form_data (self (generate_chat_pdf s).1) = form_data (self s)
  /\ css (self (generate_chat_pdf s).1) = css (self s).
Proof. run_generate; done. Qed.

(** Where a call leaves [FONTS_DIR]: at its value, at the directory under
    the first site-packages directory, or at the relative one. *)
Lemma generate_chat_pdf_fonts_dir s :
  FONTS_DIR (module (generate_chat_pdf s).1)
  ∈ FONTS_DIR (module s)
    :: lit "backend/static/fonts"
    :: map (fun site => path_join site "static/fonts")
         (take 1 getsitepackages).
Proof.
  run_generate; cbn [take map];
    repeat first [apply list_elem_of_here | apply list_elem_of_further].
Qed.

(** When the configured font directory exists, a call leaves the globals
    of the module as they were. *)
Lemma generate_chat_pdf_existing_fonts_dir s :
  path_exists (FONTS_DIR (module s)) = true ->
  module (generate_chat_pdf s).1 = module s.
Proof. intros H. run_generate; congruence. Qed.

(** Nor are they touched when the page cannot be added or when there is no
    site-packages directory. *)
Lemma generate_chat_pdf_unresolved_fonts_dir s :
  (exists e, add_page FPDF = Raise e) \/ getsitepackages = [] ->
  module (generate_chat_pdf s).1 = module s.
Proof.
  intros [[e He]|Hs]; run_generate; first [congruence | by destruct s as [[]]].
Qed.

(** When it does not exist and the call gets as far as the fonts, the
    global is rebound, and stays so after the call. *)
Lemma generate_chat_pdf_rebinds_fonts_dir s doc site rest :
  add_page FPDF = Ok doc ->
  path_exists (FONTS_DIR (module s)) = false ->
  getsitepackages = site :: rest ->
  FONTS_DIR (module (generate_chat_pdf s).1)
  = if path_exists (path_join site "static/fonts")
    then path_join site "static/fonts"
    else lit "backend/static/fonts".
Proof.
  intros Hp He Hs. cbv [generate_chat_pdf try_except_M mbind M_bind mret
    M_ret lift read write]. cbv beta iota. rewrite Hp, He, Hs.
  cbv beta iota delta [negb first_item].
  cbn [module FONTS_DIR set_FONTS_DIR].
  destruct (path_exists (path_join site "static/fonts")) eqn:E;
    repeat run_step; reflexivity.
Qed.

(** C9, as the code has it: a call never rebinds [STATIC_DIR]; it leaves
    [FONTS_DIR] as it was when the configured directory exists, when the
    page cannot be added and when there is no site-packages directory;
    otherwise it rebinds [FONTS_DIR] to [static/fonts] under the first
    site-packages directory if that exists and to [backend/static/fonts]
    if not, and the state the call leaves, whether it returns or raises,
    holds the new value. *)
Theorem generate_chat_pdf_globals (s : state) :
  STATIC_DIR (module (generate_chat_pdf s).1) = STATIC_DIR (module s)
  /\ (path_exists (FONTS_DIR (module s)) = true ->
      FONTS_DIR (module (generate_chat_pdf s).1) = FONTS_DIR (module s))
  /\ ((exists e, add_page FPDF = Raise e) \/ getsitepackages = [] ->
      FONTS_DIR (module (generate_chat_pdf s).1) = FONTS_DIR (module s))
  /\ (forall doc site rest,
        add_page FPDF = Ok doc ->
        path_exists (FONTS_DIR (module s)) = false ->
        getsitepackages = site :: rest ->
        FONTS_DIR (module (generate_chat_pdf s).1)
        = if path_exists (path_join site "static/fonts")
          then path_join site "static/fonts"
          else lit "backend/static/fonts").
Proof.
  split; [apply generate_chat_pdf_frame|].
  split; [intros H; by rewrite generate_chat_pdf_existing_fonts_dir|].
  split; [intros H; by rewrite generate_chat_pdf_unresolved_fonts_dir|].
  intros doc site rest. apply generate_chat_pdf_rebinds_fonts_dir.
Qed.





(** A message that cannot be rendered ends the call with an exception. *)
Lemma generate_chat_pdf_raises s m e :
  m ∈ form_messages (form_data (self s)) ->
  _build_html_message m = Raise e ->
  exists e', (generate_chat_pdf s).2 = Raise e'.
Proof.
  intros Hin Hm.
  destruct (list_comprehension_raises _ _ _ _ Hin Hm) as [e' He'].
  run_generate; eauto; congruence.
Qed.

(** C10: an assistant message without a model name, or whose model name is
    [None], is not rendered: [html.escape] is applied to [None] and raises
    [AttributeError], and so does the generation of a transcript that
    holds such a message. *)
Theorem assistant_without_model_raises (m : message) :
  get m "role" (VStr (lit "user")) = VStr (lit "assistant") ->
  m !! "model" = None \/ m !! "model" = Some VNone ->
  _build_html_message m = Raise AttributeError
  /\ (forall messages, m ∈ messages ->
        exists e, list_comprehension _build_html_message messages = Raise e)
  /\ (forall s, m ∈ form_messages (form_data (self s)) ->
        exists e, (generate_chat_pdf s).2 = Raise e).
Proof.
  intros Hrole Hmodel.
  assert (_build_html_message m = Raise AttributeError) as H.
  { unfold _build_html_message, _build_html_message_locals.
    rewrite Hrole. cbn [escape mbind result_bind].
    destruct (escape (get m "content" (VStr []))) as [content|e] eqn:Hc.
    - cbn [mbind result_bind].
      change (escape_str (lit "assistant")) with (lit "assistant").
      destruct (decide (lit "assistant" = lit "assistant")); [|done].
      assert (get m "model" VNone = VNone) as ->.
      { unfold get. by destruct Hmodel as [->| ->]. }
      reflexivity.
    - destruct (get m "content" (VStr [])); try discriminate; by inversion Hc. }
  split; [exact H|]. split.
  - intros messages Hin. by eapply list_comprehension_raises.
  - intros s Hin. by eapply generate_chat_pdf_raises.
Qed.

End Document.

Lemma generate_chat_pdf_globals_witness :
  STATIC_DIR
    (module (@generate_chat_pdf Sample.libraries Sample.unconfigured_state).1)
  = STATIC_DIR (module Sample.unconfigured_state)
  /\ FONTS_DIR
       (module (@generate_chat_pdf Sample.libraries
                  Sample.configured_state).1)
     = FONTS_DIR (module Sample.configured_state)
  /\ FONTS_DIR
       (module (@generate_chat_pdf Cases.bare_host
                  Sample.unconfigured_state).1)
     = FONTS_DIR (module Sample.unconfigured_state)
  /\ FONTS_DIR
       (module (@generate_chat_pdf Sample.libraries
                  Sample.unconfigured_state).1)
     = lit "/usr/lib/python3/site-packages/static/fonts".
Proof.
  split; [|split; [|split]].
  - exact (proj1 (@generate_chat_pdf_globals Sample.libraries
                    Sample.unconfigured_state)).
  - exact (proj1 (proj2 (@generate_chat_pdf_globals Sample.libraries
                           Sample.configured_state)) eq_refl).
  - exact (proj1 (proj2 (proj2 (@generate_chat_pdf_globals Cases.bare_host
                                  Sample.unconfigured_state)))
             (or_intror eq_refl)).
  - exact (proj2 (proj2 (proj2 (@generate_chat_pdf_globals Sample.libraries
                                  Sample.unconfigured_state)))
             (Sample.MkPdf 1 [] []) Sample.site_packages [] eq_refl eq_refl
             eq_refl).
Defined.

(** C9, as the claim has it, fails: on a host whose configured font
    directory does not exist, the global [FONTS_DIR] is another path after
    the call than before, whether the call returns or raises. *)
Lemma generate_chat_pdf_rebinds_global :
  (exists pdf_bytes,
     (@generate_chat_pdf Sample.libraries Sample.unconfigured_state).2
     = Ok pdf_bytes)
  /\ FONTS_DIR
       (module (@generate_chat_pdf Sample.libraries
                  Sample.unconfigured_state).1)
     = lit "/usr/lib/python3/site-packages/static/fonts"
  /\ FONTS_DIR (module Sample.unconfigured_state)
     = lit "/app/backend/open_webui/static/fonts"
  /\ module (@generate_chat_pdf Sample.libraries
               Sample.unconfigured_state).1
     <> module Sample.unconfigured_state
  /\ (@generate_chat_pdf Sample.libraries Sample.failing_state).2
     = Raise AttributeError
  /\ module (@generate_chat_pdf Sample.libraries Sample.failing_state).1
     <> module Sample.failing_state.
Proof.
  assert (module (@generate_chat_pdf Sample.libraries
                    Sample.unconfigured_state).1
          = MkGlobals (lit "/app/backend/open_webui/static")
              (lit "/usr/lib/python3/site-packages/static/fonts")) as Hu
    by (vm_compute; reflexivity).
  assert (module (@generate_chat_pdf Sample.libraries
                    Sample.failing_state).1
          = MkGlobals (lit "/app/backend/open_webui/static")
              (lit "/usr/lib/python3/site-packages/static/fonts")) as Hf
    by (vm_compute; reflexivity).
  split; [eexists; vm_compute; reflexivity|].
  split; [by rewrite Hu|]. split; [reflexivity|].
  split; [rewrite Hu; vm_compute; discriminate|].
  split; [vm_compute; reflexivity|].
  rewrite Hf. vm_compute. discriminate.
Qed.


Lemma assistant_without_model_raises_witness :
  @_build_html_message Sample.libraries Sample.no_model_message
  = Raise AttributeError
  /\ (@generate_chat_pdf Sample.libraries Sample.failing_state).2
     = Raise AttributeError.
Proof.
  destruct (@assistant_without_model_raises Sample.libraries
              Sample.no_model_message eq_refl (or_introl eq_refl))
    as (H & _ & _).
  split; [exact H | reflexivity].
Defined.

(** The [OverflowError] of C3 leaves the renderer as well. *)
Example far_future_timestamp_aborts :
  @_build_html_message Sample.libraries Sample.far_future_message
  = Raise OverflowError.
Proof. reflexivity. Qed.

(** * Further properties of the module *)

(** ** The detector *)

(** X1: [contains_rtl] holds exactly of the texts with a code point in
    U+0590..U+07BF, U+FB50..U+FDFF or U+FE70..U+FEFF, and so fails exactly
    when every code point is outside these three intervals. *)
Theorem contains_rtl_characterization (text : str) :
  (contains_rtl text = true <->
   exists c, c ∈ text /\
     (0x0590 <= c <= 0x07BF \/ 0xFB50 <= c <= 0xFDFF
      \/ 0xFE70 <= c <= 0xFEFF))
  /\ (contains_rtl text = false <->
      forall c, c ∈ text ->
        ~ (0x0590 <= c <= 0x07BF \/ 0xFB50 <= c <= 0xFDFF
           \/ 0xFE70 <= c <= 0xFEFF)).
Proof.
  split; [apply contains_rtl_iff|].
  rewrite <- not_true_iff_false, contains_rtl_iff. split.
  - intros H c Hc Hr. apply H. eauto.
  - intros H (c & Hc & Hr). by apply (H c).
Qed.

Lemma existsb_flat_map {A B} (P : B -> bool) (f : A -> list B) l :
  existsb P (flat_map f l) = existsb (fun x => existsb P (f x)) l.
Proof.
  induction l as [|x l IH]; [reflexivity|].
  simpl. rewrite existsb_app, IH. reflexivity.
Qed.

Lemma existsb_pointwise {A} (P Q : A -> bool) l :
  (forall x, P x = Q x) -> existsb P l = existsb Q l.
Proof.
  intros H. induction l as [|x l IH]; [reflexivity|].
  simpl. rewrite H, IH. reflexivity.
Qed.

(** Escaping writes ASCII characters only: a class without ASCII
    character is found in the escaped text exactly when it is found in the
    text. *)
Lemma re_search_escape_str class s :
  (forall c, 0 <= c < 128 -> in_class class c = false) ->
  re_search class (escape_str s) = re_search class s.
Proof.
  intros Hclass. unfold re_search.
  rewrite escape_str_flat_map, existsb_flat_map.
  apply existsb_pointwise. intros c.
  unfold escape_char, AMP, LT, GT, QUOT, APOS.
  destruct (Z.eqb_spec c 38) as [->|?];
    [cbn [existsb lit map String.list_ascii_of_string];
     rewrite !Hclass by (cbn; lia); reflexivity|].
  destruct (Z.eqb_spec c 60) as [->|?];
    [cbn [existsb lit map String.list_ascii_of_string];
     rewrite !Hclass by (cbn; lia); reflexivity|].
  destruct (Z.eqb_spec c 62) as [->|?];
    [cbn [existsb lit map String.list_ascii_of_string];
     rewrite !Hclass by (cbn; lia); reflexivity|].
  destruct (Z.eqb_spec c 34) as [->|?];
    [cbn [existsb lit map String.list_ascii_of_string];
     rewrite !Hclass by (cbn; lia); reflexivity|].
  destruct (Z.eqb_spec c 39) as [->|?];
    [cbn [existsb lit map String.list_ascii_of_string];
     rewrite !Hclass by (cbn; lia); reflexivity|].
  cbn [existsb]. apply orb_false_r.
Qed.

Lemma rtl_re_not_ascii c : 0 <= c < 128 -> in_class rtl_re c = false.
Proof.
  intros H. apply not_true_iff_false. rewrite in_class_rtl_re. lia.
Qed.

Lemma arabic_re_not_ascii c : 0 <= c < 128 -> in_class arabic_re c = false.
Proof.
  intros H. apply not_true_iff_false. rewrite in_class_arabic_re.
  unfold is_arabic. lia.
Qed.

(** X2: the two tests of the module decide the same on an escaped text as
    on the text: the gate of [_build_html_message], which tests the
    escaped content, opens exactly for the contents with a character of
    the detector's ranges, and escaping a line changes nothing to whether
    [fix_rtl] reshapes it. *)
Theorem contains_rtl_escape (s : str) :
  contains_rtl (escape_str s) = contains_rtl s
  /\ re_search arabic_re (escape_str s) = re_search arabic_re s.
Proof.
  split; apply re_search_escape_str;
    [apply rtl_re_not_ascii | apply arabic_re_not_ascii].
Qed.

(** ** The normalizer *)

Section MoreNormalizer.
Context {L : Libraries}.

(** X3: a text without a character of the Arabic block U+0600..U+06FF is
    never reshaped, whether the detector holds of it or not (Hebrew,
    Syriac, Thaana, Arabic Supplement and presentation forms): each
    wrapped line goes to the bidi pass as it is. *)
Theorem fix_rtl_without_arabic_block `{!WrapSpec L} (text : str) (width : Z) :
  0 < width ->
  (forall c, c ∈ text -> ~ is_arabic c) ->
  fix_rtl text width = join [NEWLINE] (map get_display (wrap text width)).
Proof.
  intros Hw Ht. rewrite fix_rtl_map. f_equal.
  apply map_ext_in. intros line Hl. apply list_elem_of_In in Hl.
  assert (re_search arabic_re line = false) as ->; [|reflexivity].
  apply re_search_false. intros c Hc. apply not_true_iff_false.
  rewrite in_class_arabic_re.
  destruct (wrap_elem text width line c Hw Hl Hc) as [->|Hin].
  - unfold is_arabic, SPACE. lia.
  - by apply Ht.
Qed.

End MoreNormalizer.

Lemma fix_rtl_without_arabic_block_witness :
  contains_rtl Cases.hebrew_text = true
  /\ @fix_rtl Sample.libraries Cases.hebrew_text 75
     = [0x05DD; 0x05DC; 0x05D5; 0x05E2; 32; 0x05DD; 0x05D5; 0x05DC; 0x05E9].
Proof.
  split; [reflexivity|].
  apply (@fix_rtl_without_arabic_block Sample.libraries SampleFacts.wrap_spec
           Cases.hebrew_text 75); [reflexivity|].
  intros c Hc. unfold is_arabic.
  unfold Cases.hebrew_text in Hc.
  repeat (apply elem_of_cons in Hc as [->|Hc]; [lia|]).
  inversion Hc.
Defined.

(** ** The timestamp formatter *)

Section MoreFormatter.
Context {L : Libraries}.

(** X4: whatever [format_timestamp] returns is the empty string or a
    string of the shape [Y-MM-DD, HH:MM:SS], of seventeen to twenty
    characters: the year is written without padding, on one to four
    digits. *)
Theorem format_timestamp_blank_or_date (timestamp : value) (s : str) :
  format_timestamp timestamp = Ok s ->
  s = [] \/ (date_shape s = true /\ (17 <= length s <= 20)%nat).
Proof.
  pose proof (format_timestamp_cases timestamp) as H.
  destruct (fromtimestamp timestamp) as [d|[]]; rewrite H; intros [= <-];
    try (by left).
  right. split; [apply strftime_shape|].
  unfold strftime, two_digits.
  destruct (year_digits_cases (year d)) as [-> | [-> | [-> | ->]]];
    cbn [four_digits app lit map String.list_ascii_of_string length]; lia.
Qed.

(** X5: a timestamp that is not a number ([None], a string, a list, a
    dictionary) is formatted to the empty string: the [TypeError] of
    [datetime.fromtimestamp] is caught. *)
Theorem format_timestamp_blank_on_non_number `{!ClockSpec L}
    (timestamp : value) :
  is_number timestamp = false -> format_timestamp timestamp = Ok [].
Proof.
  intros H. pose proof (format_timestamp_cases timestamp) as Hc.
  by rewrite (fromtimestamp_type timestamp H) in Hc.
Qed.

(** X6: when [datetime.fromtimestamp] returns a date, [format_timestamp]
    returns its year in decimal without a leading zero (one to four
    digits, four from the year 1000 on), then its month, day, hour, minute
    and second on two digits each, between the separators of the
    format. *)
Theorem format_timestamp_writes_fields `{!ClockSpec L} (timestamp : value)
    (d : datetime) :
  fromtimestamp timestamp = Ok d ->
  exists y mo dd h mi s,
    format_timestamp timestamp
    = Ok (y ++ lit "-" ++ mo ++ lit "-" ++ dd ++ lit ", " ++ h ++ lit ":"
          ++ mi ++ lit ":" ++ s)
    /\ number_of y = year d /\ head y <> Some 48
    /\ length y = (if year d <? 10 then 1%nat else if year d <? 100 then 2%nat
                   else if year d <? 1000 then 3%nat else 4%nat)
    /\ length mo = 2%nat /\ number_of mo = month d
    /\ length dd = 2%nat /\ number_of dd = day d
    /\ length h = 2%nat /\ number_of h = hour d
    /\ length mi = 2%nat /\ number_of mi = minute d
    /\ length s = 2%nat /\ number_of s = second d.
Proof.
  intros H. pose proof (format_timestamp_cases timestamp) as Hc.
  rewrite H in Hc.
  destruct (fromtimestamp_valid timestamp d H)
    as (Hy & Hm & Hd & Hh & Hmi & Hs).
  destruct (year_digits_number (year d) Hy) as (Hn & Hl & Hz).
  exists (year_digits (year d)), (two_digits (month d)), (two_digits (day d)),
    (two_digits (hour d)), (two_digits (minute d)), (two_digits (second d)).
  split; [exact Hc|].
  rewrite !two_digits_number by lia. done.
Qed.

End MoreFormatter.

Lemma format_timestamp_blank_or_date_witness :
  (lit "2023-11-14, 22:13:20" = []
   \/ (date_shape (lit "2023-11-14, 22:13:20") = true
       /\ (17 <= length (lit "2023-11-14, 22:13:20") <= 20)%nat))
  /\ (lit "999-12-31, 23:59:59" = []
      \/ (date_shape (lit "999-12-31, 23:59:59") = true
          /\ (17 <= length (lit "999-12-31, 23:59:59") <= 20)%nat)).
Proof.
  split.
  - apply (@format_timestamp_blank_or_date Sample.libraries
             (VInt 1700000000)). reflexivity.
  - apply (@format_timestamp_blank_or_date Sample.libraries
             (VInt (-30610224001))). reflexivity.
Defined.

Lemma format_timestamp_blank_on_non_number_witness :
  @format_timestamp Sample.libraries (VStr (lit "not a number")) = Ok []
  /\ @format_timestamp Sample.libraries VNone = Ok [].
Proof.
  split;
    apply (@format_timestamp_blank_on_non_number Sample.libraries
             SampleFacts.clock_spec); reflexivity.
Defined.

Lemma format_timestamp_writes_fields_witness :
  exists y mo dd h mi s,
    @format_timestamp Sample.libraries (VInt (-30610224001))
    = Ok (y ++ lit "-" ++ mo ++ lit "-" ++ dd ++ lit ", " ++ h ++ lit ":"
          ++ mi ++ lit ":" ++ s)
    /\ number_of y = 999 /\ head y <> Some 48
    /\ length y = 3%nat
    /\ length mo = 2%nat /\ number_of mo = 12
    /\ length dd = 2%nat /\ number_of dd = 31
    /\ length h = 2%nat /\ number_of h = 23
    /\ length mi = 2%nat /\ number_of mi = 59
    /\ length s = 2%nat /\ number_of s = 59.
Proof.
  exact (@format_timestamp_writes_fields Sample.libraries
           SampleFacts.clock_spec (VInt (-30610224001))
           (MkDatetime 999 12 31 23 59 59) eq_refl).
Defined.

(** On the sample host the last second of the year 999 is formatted on
    nineteen characters. *)
Example format_timestamp_year_999 :
  @format_timestamp Sample.libraries (VInt (-30610224001))
  = Ok (lit "999-12-31, 23:59:59").
Proof. reflexivity. Qed.

(** ** The message renderer *)

Lemma get_insert_ne (m : message) k k' v d :
  k <> k' -> get (<[k := v]> m) k' d = get m k' d.
Proof. intros H. unfold get. by rewrite lookup_insert_ne. Qed.

(** A text is escaped to a text without special characters only if it is
    that text. *)
Lemma escape_str_plain_inv s t :
  forallb (fun c => negb (existsb (Z.eqb c) [AMP; LT; GT; QUOT; APOS])) t
    = true ->
  escape_str s = t -> s = t.
Proof.
  intros Ht <-. symmetry. apply escape_str_plain.
  rewrite escape_str_flat_map in Ht.
  induction s as [|c s IH]; [reflexivity|].
  cbn [flat_map] in Ht. rewrite forallb_app, andb_true_iff in Ht.
  destruct Ht as [Hc Hs]. cbn [forallb]. rewrite (IH Hs), andb_true_r.
  revert Hc. unfold escape_char, AMP, LT, GT, QUOT, APOS.
  destruct (Z.eqb_spec c 38) as [->|?]; [discriminate|].
  destruct (Z.eqb_spec c 60) as [->|?]; [discriminate|].
  destruct (Z.eqb_spec c 62) as [->|?]; [discriminate|].
  destruct (Z.eqb_spec c 34) as [->|?]; [discriminate|].
  destruct (Z.eqb_spec c 39) as [->|?]; [discriminate|].
  cbn [forallb]. by rewrite andb_true_r.
Qed.

Section MoreRenderer.
Context {L : Libraries}.

(** X7: the only exceptions of [_build_html_message] are the
    [AttributeError] of a text field that is not a string and, for a true
    timestamp, whatever [format_timestamp] lets through. *)
Theorem build_html_message_exceptions (m : message) (e : exn) :
  _build_html_message m = Raise e ->
  e = AttributeError
  \/ (truthy (get m "timestamp" VNone) = true
      /\ format_timestamp (get m "timestamp" VNone) = Raise e).
Proof.
  unfold _build_html_message, _build_html_message_locals.
  destruct (escape (get m "role" (VStr (lit "user")))) as [role|e1] eqn:Hr.
  2: { destruct (get m "role" _); inversion Hr; subst.
       all: intros [= <-]; by left. }
  cbn [mbind result_bind].
  destruct (escape (get m "content" (VStr []))) as [content|e2] eqn:Hc.
  2: { destruct (get m "content" _); inversion Hc; subst.
       all: intros [= <-]; by left. }
  cbn [mbind result_bind].
  destruct (escape (if decide (role = lit "assistant") then _ else _))
    as [model|e3] eqn:Hm.
  2: { destruct (if decide (role = lit "assistant") then _ else _);
         inversion Hm; subst.
       all: intros [= <-]; by left. }
  cbn [mbind result_bind].
  destruct (truthy (get m "timestamp" VNone)) eqn:Ht.
  - destruct (format_timestamp _) as [formatted|e4] eqn:Hf.
    + discriminate.
    + intros [= <-]. by right.
  - discriminate.
Qed.

(** X8: a message without role and content, and without a true
    timestamp, is rendered as an empty message of the user, whatever its
    other keys. *)
Theorem build_html_message_defaults (m : message) :
  m !! "role" = None -> m !! "content" = None ->
  truthy (get m "timestamp" VNone) = false ->
  _build_html_message m = Ok (html_message (title (lit "user")) [] [] []).
Proof.
  intros Hr Hc Ht. unfold _build_html_message.
  rewrite (build_html_message_locals_ok m (lit "user") [] [] []).
  - reflexivity.
  - unfold get. by rewrite Hr.
  - unfold get. by rewrite Hc.
  - reflexivity.
  - by rewrite Ht.
Qed.

(** X9: the model field is read for an assistant message only: for any
    other role, setting it to any value, string or not, changes nothing
    to the outcome. *)
Theorem model_ignored_unless_assistant (m : message) (v : value) :
  get m "role" (VStr (lit "user")) <> VStr (lit "assistant") ->
  _build_html_message (<["model" := v]> m) = _build_html_message m.
Proof.
  intros Hrole. unfold _build_html_message, _build_html_message_locals.
  rewrite (get_insert_ne m "model" "role"), (get_insert_ne m "model" "content"),
    !(get_insert_ne m "model" "timestamp") by done.
  destruct (get m "role" (VStr (lit "user")))
    as [| | | |role| |] eqn:Hr; try reflexivity.
  cbn [escape mbind result_bind].
  destruct (escape (get m "content" (VStr []))) as [content|]; [|reflexivity].
  cbn [mbind result_bind].
  destruct (decide (escape_str role = lit "assistant")) as [Heq|Hne];
    [|reflexivity].
  exfalso. apply Hrole. f_equal.
  by apply escape_str_plain_inv.
Qed.


(** X11: the date of a fragment is empty or has the shape
    [Y-MM-DD, HH:MM:SS], with a year of one to four digits: escaping
    leaves a formatted date as it is. *)
Theorem date_is_blank_or_formatted (m : message) (l : locals) :
  _build_html_message_locals m = Ok l ->
  loc_date_str l = [] \/ date_shape (loc_date_str l) = true.
Proof.
  intros Hl. apply build_html_message_locals_inv in Hl
    as (role & content & model & formatted & _ & _ & _ & Hf & ->).
  cbn [loc_date_str].
  destruct (truthy _); [|injection Hf as <-; by left].
  pose proof (format_timestamp_cases (get m "timestamp" VNone)) as Hc.
  destruct (fromtimestamp _) as [d|[]]; rewrite Hc in Hf;
    try discriminate; injection Hf as <-; try (by left).
  right. rewrite strftime_plain. apply strftime_shape.
Qed.

(** X12: a role or a content that is present and is not a string ([None],
    a number, a list) makes [_build_html_message] raise
    [AttributeError]. *)
Theorem non_string_text_raises (m : message) :
  (forall s, get m "role" (VStr (lit "user")) <> VStr s)
  \/ (forall s, get m "content" (VStr []) <> VStr s) ->
  _build_html_message m = Raise AttributeError.
Proof.
  intros H. unfold _build_html_message, _build_html_message_locals.
  destruct (get m "role" (VStr (lit "user")))
    as [| | | |role| |] eqn:Hr; try reflexivity.
  destruct H as [H|H]; [by destruct (H role)|].
  cbn [escape mbind result_bind].
  destruct (get m "content" (VStr []))
    as [| | | |content| |] eqn:Hc; try reflexivity.
  by destruct (H content).
Qed.

(** X13: a content without a character of the detector's ranges does not
    go through the normalizer: it is embedded as escaped, with its own
    line breaks and without wrapping. *)
Theorem ltr_content_is_not_wrapped (m : message) (l : locals) (content : str) :
  _build_html_message_locals m = Ok l ->
  get m "content" (VStr []) = VStr content ->
  contains_rtl content = false ->
  loc_content l = replace NEWLINE (lit "<br/>") (escape_str content).
Proof.
  intros Hl Hc Hrtl. apply build_html_message_locals_inv in Hl
    as (role & content' & model & formatted & _ & Hc' & _ & _ & ->).
  rewrite Hc in Hc'. injection Hc' as <-.
  cbn [loc_content]. unfold contains_rtl in *.
  by rewrite (re_search_escape_str rtl_re content rtl_re_not_ascii), Hrtl.
Qed.

End MoreRenderer.

Lemma build_html_message_exceptions_witness :
  OverflowError = AttributeError
  \/ (truthy (get Sample.far_future_message "timestamp" VNone) = true
      /\ @format_timestamp Sample.libraries
           (get Sample.far_future_message "timestamp" VNone)
         = Raise OverflowError).
Proof.
  apply (@build_html_message_exceptions Sample.libraries
           Sample.far_future_message OverflowError).
  reflexivity.
Defined.

Lemma build_html_message_defaults_witness :
  @_build_html_message Sample.libraries Cases.model_only_message
  = Ok (html_message (lit "User") [] [] []).
Proof.
  apply (@build_html_message_defaults Sample.libraries
           Cases.model_only_message); reflexivity.
Defined.

Lemma model_ignored_unless_assistant_witness :
  @_build_html_message Sample.libraries
    (<["model" := VNone]> Sample.user_message)
  = @_build_html_message Sample.libraries Sample.user_message.
Proof.
  apply (@model_ignored_unless_assistant Sample.libraries
           Sample.user_message VNone).
  discriminate.
Defined.


Lemma date_is_blank_or_formatted_witness :
  exists l,
    @_build_html_message_locals Sample.libraries Cases.two_line_message = Ok l
    /\ (loc_date_str l = [] \/ date_shape (loc_date_str l) = true).
Proof.
  eexists. split; [vm_compute; reflexivity|].
  apply (@date_is_blank_or_formatted Sample.libraries
           Cases.two_line_message). reflexivity.
Defined.

Lemma non_string_text_raises_witness :
  @_build_html_message Sample.libraries Cases.numeric_role_message
  = Raise AttributeError.
Proof.
  apply (@non_string_text_raises Sample.libraries
           Cases.numeric_role_message).
  left. intros s. discriminate.
Defined.

Lemma ltr_content_is_not_wrapped_witness :
  exists l,
    @_build_html_message_locals Sample.libraries Cases.two_line_message = Ok l
    /\ loc_content l
       = lit "a first line that is well over seventy-five characters "
         ++ lit "long, so that wrapping it would cut it" ++ lit "<br/>"
         ++ lit "second &amp; last".
Proof.
  eexists. split; [vm_compute; reflexivity|].
  exact (@ltr_content_is_not_wrapped Sample.libraries
           Cases.two_line_message _
           (lit "a first line that is well over seventy-five characters "
            ++ lit "long, so that wrapping it would cut it" ++ [NEWLINE]
            ++ lit "second & last")
           eq_refl eq_refl eq_refl).
Defined.

(** ** The document assembler and the PDF renderer *)

Section MoreDocument.
Context {L : Libraries}.

(** X14: the title of the document is the output of [html.escape], which
    [_generate_html_body] applies last: it has no angle bracket and each
    of its ampersands opens a reference, also when the title went through
    [fix_rtl]; a title without right-to-left character is escaped as it
    is; and the body is assembled for every title. *)
Theorem html_body_title_is_escaped (me : PDFGenerator) :
  exists escaped_title,
    _generate_html_body me
    = Ok (html_document escaped_title (format_attr (messages_html me)))
    /\ no_angle escaped_title = true
    /\ amp_wf escaped_title = true
    /\ (contains_rtl (form_title (form_data me)) = false ->
        escaped_title = escape_str (form_title (form_data me))).
Proof.
  eexists. split; [apply generate_html_body_eq|].
  split; [apply escape_str_no_angle|].
  split; [apply escape_str_amp_wf|].
  intros ->. reflexivity.
Qed.

(** The font calls leave the state alone and read one directory. *)
Lemma add_fonts_eq fs : forall doc s,
  add_fonts fs doc s = (s, load_fonts (FONTS_DIR (module s)) fs doc).
Proof.
  induction fs as [|[[family style] file] fs IH]; intros doc s.
  - reflexivity.
  - cbn [add_fonts load_fonts]. unfold mbind at 1 2. unfold M_bind, read, lift.
    destruct (add_font _ _ _ doc) as [doc'|e]; cbn [mbind result_bind].
    + apply IH.
    + reflexivity.
Qed.

Ltac call_step :=
  match goal with
  | |- context [add_fonts ?f ?d ?s] => rewrite (add_fonts_eq f d s)
  | |- context [_generate_html_body ?me] =>
      rewrite (generate_html_body_eq me)
  | |- context [first_item ?l] =>
      destruct l eqn:?; cbn [first_item]
  | |- context [path_exists ?p] =>
      destruct (path_exists p) eqn:?
  | |- context [match ?x with _ => _ end] =>
      lazymatch type of x with
      | result _ => destruct x eqn:?
      end
  end;
  cbv beta iota delta [negb];
  cbn [module self FONTS_DIR STATIC_DIR set_FONTS_DIR set_messages_html
       set_html_body html_body messages_html form_data css fst snd].

Ltac call_generate :=
  cbv [generate_chat_pdf try_except_M mbind M_bind mret M_ret lift read
       write];
  cbv beta iota;
  cbn [module self FONTS_DIR STATIC_DIR set_FONTS_DIR set_messages_html
       set_html_body html_body messages_html form_data css fst snd];
  repeat call_step.

(** X15: a call changes neither [STATIC_DIR], nor the form, nor the
    stylesheet of the instance, whether it returns or raises. *)
Theorem generate_chat_pdf_keeps_configuration (s : state) :
  STATIC_DIR (module (generate_chat_pdf s).1) = STATIC_DIR (module s)
  /\ form_data (self (generate_chat_pdf s).1) = form_data (self s)
  /\ css (self (generate_chat_pdf s).1) = css (self s).
Proof. call_generate; done. Qed.

Lemma fonts_dir_after s :
  FONTS_DIR (module (generate_chat_pdf s).1)
  = match add_page FPDF with
    | Ok _ => resolve_fonts_dir (FONTS_DIR (module s))
    | Raise _ => FONTS_DIR (module s)
    end.
Proof.
  unfold resolve_fonts_dir. call_generate; first [reflexivity | congruence].
Qed.

Lemma resolve_fonts_dir_idempotent p :
  resolve_fonts_dir (resolve_fonts_dir p) = resolve_fonts_dir p.
Proof.
  unfold resolve_fonts_dir.
  destruct (path_exists p) eqn:Hp; [by rewrite Hp|].
  destruct getsitepackages as [|site rest]; [by rewrite Hp|].
  destruct (path_exists (path_join site "static/fonts")) eqn:Hs;
    [by rewrite Hs|].
  destruct (path_exists (lit "backend/static/fonts")); reflexivity.
Qed.

(** X16: once the page is added, a call leaves in [FONTS_DIR] the
    configured directory if it exists; else, if there is a site-packages
    directory, the [static/fonts] under the first one if it exists and
    [backend/static/fonts] if not; and the configured one if there is
    none. *)
Theorem generate_chat_pdf_resolves_fonts_dir (s : state) (doc : pdf) :
  add_page FPDF = Ok doc ->
  FONTS_DIR (module (generate_chat_pdf s).1)
  = resolve_fonts_dir (FONTS_DIR (module s)).
Proof. intros H. by rewrite fonts_dir_after, H. Qed.

(** X17: the resolution is settled by the first call: a second call on
    the state the first one leaves does not move [FONTS_DIR] again. *)
Theorem fonts_dir_settles (s : state) :
  FONTS_DIR (module (generate_chat_pdf (generate_chat_pdf s).1).1)
  = FONTS_DIR (module (generate_chat_pdf s).1).
Proof.
  rewrite (fonts_dir_after (generate_chat_pdf s).1), (fonts_dir_after s).
  destruct (add_page FPDF); [apply resolve_fonts_dir_idempotent | done].
Qed.

(** X18: when a message of the transcript cannot be rendered, the call
    raises and leaves [messages_html] and [html_body] as they were: no
    partial document is stored. *)
Theorem failed_rendering_keeps_attributes (s : state) (m : message)
    (e : exn) :
  m ∈ form_messages (form_data (self s)) ->
  _build_html_message m = Raise e ->
  (exists e', (generate_chat_pdf s).2 = Raise e')
  /\ messages_html (self (generate_chat_pdf s).1) = messages_html (self s)
  /\ html_body (self (generate_chat_pdf s).1) = html_body (self s).
Proof.
  intros Hin Hm.
  destruct (list_comprehension_raises _ _ _ _ Hin Hm) as [e' He'].
  call_generate; try congruence; eauto.
Qed.

(** X19: the messages are rendered in order and the first one that fails
    decides the exception: those after it are not looked at. *)
Theorem first_failure_is_raised (rendered : list message)
    (fragments : list str) (m : message) (rest : list message) (e : exn) :
  list_comprehension _build_html_message rendered = Ok fragments ->
  _build_html_message m = Raise e ->
  list_comprehension _build_html_message (rendered ++ m :: rest) = Raise e.
Proof.
  revert fragments. induction rendered as [|x xs IH]; intros fragments Hok Hm.
  - cbn [app list_comprehension]. by rewrite Hm.
  - cbn [app list_comprehension] in *.
    destruct (_build_html_message x) as [y|]; [|discriminate].
    cbn [mbind result_bind] in *.
    destruct (list_comprehension _build_html_message xs) as [ys|] eqn:Hxs;
      [|discriminate].
    by rewrite (IH ys eq_refl Hm).
Qed.

(** X20: without the configured font directory and without any
    site-packages directory, the call raises [IndexError] and changes
    nothing. *)
Theorem no_site_packages_raises_index_error (s : state) (doc : pdf) :
  add_page FPDF = Ok doc ->
  path_exists (FONTS_DIR (module s)) = false ->
  getsitepackages = [] ->
  generate_chat_pdf s = (s, Raise IndexError).
Proof.
  intros Hp He Hs.
  cbv [generate_chat_pdf try_except_M mbind M_bind mret M_ret lift read
       write]. cbv beta iota.
  rewrite Hp, He, Hs. reflexivity.
Qed.

(** X21: the bytes a call returns are the output of the document into
    which the stored [html_body] was written, and this document had the
    twelve fonts loaded from the directory [FONTS_DIR] holds after the
    call. *)
Theorem returned_bytes_are_rendered_body (s s' : state)
    (pdf_bytes : list Byte.byte) :
  generate_chat_pdf s = (s', Ok pdf_bytes) ->
  exists body page loaded styled written,
    html_body (self s') = Some body
    /\ add_page FPDF = Ok page
    /\ load_fonts (FONTS_DIR (module s')) fonts page = Ok loaded
    /\ (doc ← set_font (lit "NotoSans") 12 loaded;
        doc ← set_fallback_fonts (map lit fallback_fonts) doc;
        set_auto_page_break true 15 doc) = Ok styled
    /\ write_html body styled = Ok written
    /\ output written = Ok pdf_bytes.
Proof.
  revert s' pdf_bytes.
  assert (forall (r : state * result (list Byte.byte)),
    r = generate_chat_pdf s ->
    forall s' pdf_bytes, r = (s', Ok pdf_bytes) ->
    exists body page loaded styled written,
      html_body (self s') = Some body
      /\ add_page FPDF = Ok page
      /\ load_fonts (FONTS_DIR (module s')) fonts page = Ok loaded
      /\ (doc ← set_font (lit "NotoSans") 12 loaded;
          doc ← set_fallback_fonts (map lit fallback_fonts) doc;
          set_auto_page_break true 15 doc) = Ok styled
      /\ write_html body styled = Ok written
      /\ output written = Ok pdf_bytes) as H; [|by eauto].
  intros r ->. call_generate; intros s' pdf_bytes [= <- <-];
    cbn [module self FONTS_DIR set_FONTS_DIR set_messages_html set_html_body
         html_body];
    do 5 eexists;
    (split; [reflexivity|]); (split; [reflexivity|]);
    (split; [eassumption|]);
    (split; [|split; eassumption]);
    repeat match goal with
           | H : ?t = Ok _ |- context [?t] =>
               rewrite H; cbv beta iota delta [result_bind]
           end;
    reflexivity.
Qed.

(** X22: what a call returns, and the document it stores when it
    returns, depend on [FONTS_DIR] and on the form only: not on
    [STATIC_DIR], on the stylesheet or on what an earlier call left in
    [messages_html] and [html_body]. *)
Theorem generate_chat_pdf_reads_fonts_dir_and_form (s1 s2 : state) :
  FONTS_DIR (module s1) = FONTS_DIR (module s2) ->
  form_data (self s1) = form_data (self s2) ->
  (generate_chat_pdf s1).2 = (generate_chat_pdf s2).2
  /\ (forall pdf_bytes,
        (generate_chat_pdf s1).2 = Ok pdf_bytes ->
        messages_html (self (generate_chat_pdf s1).1)
        = messages_html (self (generate_chat_pdf s2).1)
        /\ html_body (self (generate_chat_pdf s1).1)
           = html_body (self (generate_chat_pdf s2).1)).
Proof.
  destruct s1 as [[sd1 fd1] [hb1 mh1 form1 css1]].
  destruct s2 as [[sd2 fd2] [hb2 mh2 form2 css2]].
  cbn [module self FONTS_DIR form_data]. intros <- <-.
  call_generate; (split; [reflexivity|]); intros b; try discriminate; done.
Qed.

End MoreDocument.

Lemma generate_chat_pdf_resolves_fonts_dir_witness :
  FONTS_DIR
    (module (@generate_chat_pdf Sample.libraries Sample.unconfigured_state).1)
  = lit "/usr/lib/python3/site-packages/static/fonts".
Proof.
  exact (@generate_chat_pdf_resolves_fonts_dir Sample.libraries
           Sample.unconfigured_state (Sample.MkPdf 1 [] []) eq_refl).
Defined.

Lemma failed_rendering_keeps_attributes_witness :
  (exists e',
     (@generate_chat_pdf Sample.libraries Cases.half_rendered_state).2
     = Raise e')
  /\ messages_html
       (self (@generate_chat_pdf Sample.libraries
                Cases.half_rendered_state).1)
     = Some (lit "old messages")
  /\ html_body
       (self (@generate_chat_pdf Sample.libraries
                Cases.half_rendered_state).1)
     = Some (lit "old body").
Proof.
  apply (@failed_rendering_keeps_attributes Sample.libraries
           Cases.half_rendered_state Sample.far_future_message
           OverflowError).
  - apply list_elem_of_further, list_elem_of_here.
  - reflexivity.
Defined.

Lemma first_failure_is_raised_witness :
  @list_comprehension message str (@_build_html_message Sample.libraries)
    [Sample.user_message; Sample.far_future_message; Sample.no_model_message]
  = Raise OverflowError.
Proof.
  eapply (@first_failure_is_raised Sample.libraries [Sample.user_message] _
            Sample.far_future_message [Sample.no_model_message]
            OverflowError).
  - vm_compute. reflexivity.
  - reflexivity.
Defined.

Lemma no_site_packages_raises_index_error_witness :
  @generate_chat_pdf Cases.bare_host Sample.unconfigured_state
  = (Sample.unconfigured_state, Raise IndexError).
Proof.
  apply (@no_site_packages_raises_index_error Cases.bare_host
           Sample.unconfigured_state (Sample.MkPdf 1 [] []));
    reflexivity.
Defined.

Lemma returned_bytes_are_rendered_body_witness :
  exists body page loaded styled written,
    html_body
      (self (@generate_chat_pdf Sample.libraries Sample.configured_state).1)
    = Some body
    /\ @add_page Sample.libraries (@FPDF Sample.libraries) = Ok page
    /\ @load_fonts Sample.libraries Sample.site_fonts fonts page = Ok loaded
    /\ (doc ← @set_font Sample.libraries (lit "NotoSans") 12 loaded;
        doc ← @set_fallback_fonts Sample.libraries (map lit fallback_fonts)
                doc;
        @set_auto_page_break Sample.libraries true 15 doc) = Ok styled
    /\ @write_html Sample.libraries body styled = Ok written
    /\ @output Sample.libraries written
       = Ok [Byte.x25; Byte.x50; Byte.x44; Byte.x46; Byte.x2d; Byte.x31;
             Byte.x2e; Byte.x33].
Proof.
  exact (@returned_bytes_are_rendered_body Sample.libraries
           Sample.configured_state
           (@generate_chat_pdf Sample.libraries Sample.configured_state).1
           [Byte.x25; Byte.x50; Byte.x44; Byte.x46; Byte.x2d; Byte.x31;
            Byte.x2e; Byte.x33]
           eq_refl).
Defined.

Lemma generate_chat_pdf_reads_fonts_dir_and_form_witness :
  (@generate_chat_pdf Sample.libraries Sample.configured_state).2
  = (@generate_chat_pdf Sample.libraries Cases.reused_state).2
  /\ (forall pdf_bytes,
        (@generate_chat_pdf Sample.libraries Sample.configured_state).2
        = Ok pdf_bytes ->
        messages_html
          (self (@generate_chat_pdf Sample.libraries
                   Sample.configured_state).1)
        = messages_html
            (self (@generate_chat_pdf Sample.libraries
                     Cases.reused_state).1)
        /\ html_body
             (self (@generate_chat_pdf Sample.libraries
                      Sample.configured_state).1)
           = html_body
               (self (@generate_chat_pdf Sample.libraries
                        Cases.reused_state).1)).
Proof.
  apply (@generate_chat_pdf_reads_fonts_dir_and_form Sample.libraries
           Sample.configured_state Cases.reused_state); reflexivity.
Defined.
